(** * pg_requests.operators: condition operands, And/Or trees, Q and F sugar

    A shallow embedding of [src/pg_requests/operators.py].  Python objects
    are the constructors of one universe [pyobj], [isinstance] tests are
    pattern matches on it, a raised exception is the [Raise] outcome of a
    small error monad, and the list [result] that [parse_conditions]
    mutates across its recursive calls is passed in and handed back. *)

From Stdlib Require Import String Ascii List ZArith NArith Bool Lia.
From Stdlib Require Import DecimalString HexString.
Import ListNotations.
Open Scope string_scope.
Set Warnings "-register-all".

(** ** Python strings *)

(** [sep.join(l)] *)
Definition join (sep : string) (l : list string) : string := String.concat sep l.

(** [s.split(sep)] for a non-empty [sep]: the leftmost occurrence of [sep]
    ends the current part and the scan goes on behind it.  [skip] counts
    the characters of a separator found that are still to be passed. *)
Fixpoint split_from (sep s : string) (skip : nat) : list string :=
  match s with
  | EmptyString => [""]
  | String c rest =>
      match skip with
      | S k => split_from sep rest k
      | O =>
          if String.prefix sep s
          then "" :: split_from sep rest (String.length sep - 1)
          else match split_from sep rest 0 with
               | part :: parts => String c part :: parts
               | [] => [String c ""]
               end
      end
  end.

Definition split (sep s : string) : list string := split_from sep s 0.

(** What [str.format] and [%s] write for an argument: one instance per
    type of argument the module formats. *)
Class Format (A : Type) := format : A -> string.

#[export] Instance Format_str : Format string := fun s => s.

(** [str(n)] of an [int] is its decimal numeral. *)
#[export] Instance Format_int : Format Z :=
  fun z => NilZero.string_of_int (Z.to_int z).

(** [None] is written [None]; this is what [format] does with the result
    of a failed [dict.get]. *)
#[export] Instance Format_optional : Format (option string) :=
  fun o => match o with Some s => s | None => "None" end.

(** An instance as the interpreter identifies it: [addr] is the address
    [id()] returns, the one [object.__repr__] prints. *)
Record located (A : Type) : Type := At { addr : N; instance : A }.
Arguments At {A} addr instance.
Arguments addr {A} _.
Arguments instance {A} _.

(** ** FieldObject (F) *)

Module FieldObject.

Record t : Type := F { _value : string }.

Definition eval (self : t) : string := _value self.

(** The class defines no [__str__], [__repr__] or [__format__]: an
    instance is formatted by [object.__repr__]. *)
#[export] Instance Format_FieldObject : Format (located t) :=
  fun o => "<pg_requests.operators.FieldObject object at "
           ++ HexString.of_N (addr o) ++ ">".

Section Arithmetic.
Context {A : Type} `{Format A}.

Definition __add__ (self : t) (other : A) : t :=
  F (eval self ++ " + " ++ format other).

Definition __sub__ (self : t) (other : A) : t :=
  F (eval self ++ " - " ++ format other).

Definition __mul__ (self : t) (other : A) : t :=
  F (eval self ++ " * " ++ format other).

Definition __div__ (self : t) (other : A) : t :=
  F (eval self ++ " / " ++ format other).

Definition __truediv__ (self : t) (other : A) : t :=
  F (eval self ++ " / " ++ format other).

Definition __floordiv__ (self : t) (other : A) : t :=
  F (eval self ++ " / " ++ format other).
End Arithmetic.

End FieldObject.
Export (hints) FieldObject.

Abbreviation FieldObject := FieldObject.t.
Abbreviation F := FieldObject.F.

(** ** The universe of objects *)

Record Operand_ (V : Type) : Type :=
  { name : string; operator : option string; value : V }.
Arguments Build_Operand_ {V} name operator value.
Arguments name {V} _.
Arguments operator {V} _.
Arguments value {V} _.

(** The two concrete subclasses of [ConditionOperator]. *)
Inductive operator_class : Type := And | Or.

(** A [dict] is kept as the list of its items in iteration order; keys of
    a shorthand condition are strings.  [conditions] of a
    [ConditionOperator] is [None] when [__init__] set no such attribute.
    The universe holds the instances of [And] and [Or]; an instance of
    the base class [ConditionOperator] itself, whose [eval] returns
    nothing, and a dict with a key that is no string are outside it. *)
Inductive pyobj : Type :=
| PyNone
| PyBool (b : bool)
| PyInt (z : Z)
| PyStr (s : string)
| PyList (l : list pyobj)
| PyTuple (l : list pyobj)
| PyDict (d : list (string * pyobj))
| NOT_A_VALUE
| PyF (f : FieldObject)
| PyOperand (o : Operand_ pyobj)
| PyQ (condition : ConditionOperator)
| PyCond (c : ConditionOperator)
with ConditionOperator : Type :=
| Instance (cls : operator_class) (conditions : option pyobj).

Abbreviation Operand := (Operand_ pyobj).
Abbreviation dict := (list (string * pyobj)).

Inductive pytype : Type :=
| NoneType | bool_t | int_t | str_t | list_t | tuple_t | dict_t | object_t
| FieldObject_t | Operand_t | QueryObject_t | And_t | Or_t.

Definition class_type (cls : operator_class) : pytype :=
  match cls with And => And_t | Or => Or_t end.

(** [type(o)] *)
Definition type (o : pyobj) : pytype :=
  match o with
  | PyNone => NoneType
  | PyBool _ => bool_t
  | PyInt _ => int_t
  | PyStr _ => str_t
  | PyList _ => list_t
  | PyTuple _ => tuple_t
  | PyDict _ => dict_t
  | NOT_A_VALUE => object_t
  | PyF _ => FieldObject_t
  | PyOperand _ => Operand_t
  | PyQ _ => QueryObject_t
  | PyCond (Instance cls _) => class_type cls
  end.

(** [type(o).__name__] *)
Definition type_name (t : pytype) : string :=
  match t with
  | NoneType => "NoneType" | bool_t => "bool" | int_t => "int"
  | str_t => "str" | list_t => "list" | tuple_t => "tuple"
  | dict_t => "dict" | object_t => "object"
  | FieldObject_t => "FieldObject" | Operand_t => "Operand"
  | QueryObject_t => "QueryObject" | And_t => "And" | Or_t => "Or"
  end.

(** ** Exceptions *)

Inductive exn_class : Type := Exception | ValueError | AttributeError | TypeError.

(** One entry of [result] in [parse_conditions]: the SQL part is a list of
    tokens (from a dict) or a prepared string (from a nested operator). *)
Inductive sql_part : Type :=
| Tokens (l : list string)
| Prepared (s : string).

Abbreviation entry := (sql_part * list pyobj)%type.

(** An argument of the message of an exception. *)
Inductive msg_arg : Type :=
| ArgStr (s : string)
| ArgObj (o : pyobj)
| ArgType (t : pytype)
| ArgResult (r : list entry).

(** A raised exception: its class, the template of its message and the
    arguments formatted into the template. *)
Record exn : Type :=
  { exn_class_of : exn_class; template : string; args : list msg_arg }.

Inductive res (A : Type) : Type :=
| Return (a : A)
| Raise (e : exn).
Arguments Return {A} a.
Arguments Raise {A} e.

Definition bind {A B : Type} (m : res A) (k : A -> res B) : res B :=
  match m with
  | Return a => k a
  | Raise e => Raise e
  end.

Declare Scope res_scope.
Delimit Scope res_scope with res.
Notation "x <- m ;; k" := (bind m (fun x => k))
  (at level 61, m at next level, right associativity) : res_scope.
Notation "' p <- m ;; k" := (bind m (fun x => let 'p := x in k))
  (at level 61, p pattern, m at next level, right associativity) : res_scope.
Open Scope res_scope.

(** *** Formatting the message

    The message of an exception is formatted before the exception is
    raised, and formatting an object of the module calls its [__repr__]:
    [Operand.__repr__] formats [self.value], [QueryObject.__repr__]
    formats [self.condition], and [ConditionOperator.__repr__] formats
    [self.conditions], which raises [AttributeError] when [__init__] set
    no such attribute.  A list, tuple or dict formats its members, in
    order; every other object of the universe is formatted without a
    failure.  [unset_in o] is the class of the first And or Or without
    conditions that formatting [o] reads, if there is one. *)
Fixpoint first_some {A B : Type} (f : A -> option B) (l : list A) : option B :=
  match l with
  | [] => None
  | x :: rest =>
      match f x with
      | Some b => Some b
      | None => first_some f rest
      end
  end.

Fixpoint unset_in (o : pyobj) : option operator_class :=
  match o with
  | PyList l | PyTuple l => first_some unset_in l
  | PyDict d => first_some (fun kv => unset_in (snd kv)) d
  | PyOperand (Build_Operand_ _ _ v) => unset_in v
  | PyQ c | PyCond c => unset_in_cond c
  | _ => None
  end
with unset_in_cond (c : ConditionOperator) : option operator_class :=
  match c with
  | Instance cls None => Some cls
  | Instance _ (Some t) => unset_in t
  end.

Definition unset_in_arg (a : msg_arg) : option operator_class :=
  match a with
  | ArgObj o => unset_in o
  | ArgResult r => first_some (fun e : entry => first_some unset_in (snd e)) r
  | ArgStr _ | ArgType _ => None
  end.

(** The [AttributeError] of reading [self.conditions] where it is not set. *)
Definition no_conditions (cls : operator_class) : exn :=
  {| exn_class_of := AttributeError;
     template := "'" ++ type_name (class_type cls)
                 ++ "' object has no attribute 'conditions'";
     args := [] |}.

(** [raise c(tpl % a)] and [raise c(tpl.format(a))]: the arguments are
    formatted, left to right, and the first failure of the formatting is
    what is raised; else the exception of class [c] is. *)
Definition raise {A : Type} (c : exn_class) (tpl : string) (a : list msg_arg) : res A :=
  Raise match first_some unset_in_arg a with
        | Some cls => no_conditions cls
        | None => {| exn_class_of := c; template := tpl; args := a |}
        end.

(** ** Operand *)

Module Operand.

Definition eval (self : Operand) : string * pyobj :=
  match value self with
  | PyF f =>
      (name self ++ " " ++ format (operator self) ++ " " ++ FieldObject.eval f,
       NOT_A_VALUE)
  | v => (name self ++ " " ++ format (operator self) ++ " %s", v)
  end.

(** The two experimental methods, for [other] an Operand:
    [(t1, val1), (t2, val2) = self.eval(), other.eval()]. *)
Definition __or__ (self other : Operand) : string * (pyobj * pyobj) :=
  let '(t1, val1) := eval self in
  let '(t2, val2) := eval other in
  ("( " ++ t1 ++ " OR " ++ t2 ++ " )", (val1, val2)).

Definition __and__ (self other : Operand) : string * (pyobj * pyobj) :=
  let '(t1, val1) := eval self in
  let '(t2, val2) := eval other in
  ("( " ++ t1 ++ " AND " ++ t2 ++ " )", (val1, val2)).

End Operand.

(** ** ConditionOperator, And, Or *)

Module ConditionOperator.

Definition OPERATORS : list (string * string) :=
  [ ("eq", "="); ("gt", ">"); ("lt", "<"); ("gte", ">="); ("lte", "<=");
    ("neq", "!="); ("is", "IS"); ("is_not", "IS NOT"); ("in", "IN");
    ("like", "LIKE"); ("ilike", "ILIKE"); ("similar_to", "SIMILAR TO") ].

Definition OP_SEPARATOR : string := "__".

(** [d.get(key)] *)
Fixpoint get (d : list (string * string)) (key : string) : option string :=
  match d with
  | [] => None
  | (k, v) :: d' => if String.eqb k key then Some v else get d' key
  end.

(** [not operator] for the result of a [get]: [None] and the empty
    string are false values. *)
Definition not_ (operator : option string) : bool :=
  match operator with
  | None => true
  | Some s => String.eqb s ""
  end.

(** [__init__(self, *args, **kwargs)]: the attribute is the tuple of
    positional arguments, else the dict of keyword arguments, else it
    is not set. *)
Definition __init__ (cls : operator_class) (args : list pyobj) (kwargs : dict)
  : ConditionOperator :=
  match args with
  | _ :: _ => Instance cls (Some (PyTuple args))
  | [] =>
      match kwargs with
      | _ :: _ => Instance cls (Some (PyDict kwargs))
      | [] => Instance cls None
      end
  end.

Fixpoint _expand_operands (operands : list Operand) : list string * list pyobj :=
  match operands with
  | [] => ([], [])
  | op :: rest =>
      let '(sql, val) := Operand.eval op in
      let '(tokens, values) := _expand_operands rest in
      (sql :: tokens, val :: values)
  end.

(** The body of the loop of [parse_dict_condition] for one item: the
    branches set [name] and [operator], then the Operand is built.  The
    list [values] the loop also fills is never read and is left out. *)
Definition parse_item (key : string) (value : pyobj) : res Operand :=
  match split OP_SEPARATOR key with
  | [k0] =>
      Return {| name := k0; operator := get OPERATORS "eq"; value := value |}
  | [k0; k1] =>
      let operator := get OPERATORS k1 in
      if not_ operator
      then Return {| name := k0 ++ "." ++ k1;
                     operator := get OPERATORS "eq"; value := value |}
      else Return {| name := k0; operator := operator; value := value |}
  | [k0; k1; k2] =>
      Return {| name := k0 ++ "." ++ k1;
                operator := get OPERATORS k2; value := value |}
  | _ =>
      raise ValueError "Wrong condition operator in `{}: {}`"
        [ArgStr key; ArgObj value]
  end.

Fixpoint parse_dict_condition (condition : dict) : res (list Operand) :=
  match condition with
  | [] => Return []
  | (key, value) :: items =>
      operand <- parse_item key value ;;
      operands <- parse_dict_condition items ;;
      Return (operand :: operands)
  end.

(** The closing loop of [parse_conditions] over [result]. *)
Definition collect (result : list entry) : list string * list pyobj :=
  fold_left
    (fun (acc : list string * list pyobj) (e : entry) =>
       let '(tokens, values) := acc in
       let '(sql_str, val_list) := e in
       (match sql_str with
        | Prepared s => tokens ++ [s]
        | Tokens l => tokens ++ l
        end,
        values ++ val_list)%list)
    result ([], []).

Definition connective (cls : operator_class) : string :=
  match cls with And => " AND " | Or => " OR " end.

(** [parse_conditions(conditions, result)] returns the list [result] as
    the call leaves it, and the pair [(tokens, values)].  [eval] is
    [And.eval] and [Or.eval], which differ in the connective only. *)
Fixpoint parse_conditions (conditions : pyobj) (result : list entry) {struct conditions}
  : res (list entry * (list string * list pyobj)) :=
  match conditions with
  | PyList l | PyTuple l =>
      result' <-
        (fix loop (l : list pyobj) (result : list entry) {struct l} : res (list entry) :=
           match l with
           | [] => Return result
           | cond :: rest =>
               match cond with
               | PyCond c =>
                   val <- eval c ;;
                   loop rest (result ++ [(Prepared (fst val), snd val)])%list
               | _ =>
                   r <- parse_conditions cond result ;;
                   loop rest (fst r)
               end
           end) l result ;;
      Return (result', collect result')
  | PyDict d =>
      operands <- parse_dict_condition d ;;
      let '(tokens, values) := _expand_operands operands in
      let result' := (result ++ [(Tokens tokens, values)])%list in
      Return (result', collect result')
  | _ =>
      raise Exception "Unexpected error. Debug: conditions=%s (%s), result=%s"
        [ArgObj conditions; ArgType (type conditions); ArgResult result]
  end
with eval (self : ConditionOperator) {struct self} : res (string * list pyobj) :=
  match self with
  | Instance cls (Some conditions) =>
      r <- parse_conditions conditions [] ;;
      let '(tokens, values) := snd r in
      let condition_str := join (connective cls) tokens in
      Return (join " " ["("; condition_str; ")"], values)
  | Instance cls None =>
      raise AttributeError
        ("'" ++ type_name (class_type cls) ++ "' object has no attribute 'conditions'") []
  end.

End ConditionOperator.

(** ** QueryObject (Q) *)

Module QueryObject.

Record t : Type := Build { condition : ConditionOperator }.

(** [__init__(self, **kwargs)]: [self.condition = And(kwargs)], the dict
    being the one positional argument of [And]. *)
Definition __init__ (kwargs : dict) : t :=
  {| condition := ConditionOperator.__init__ And [PyDict kwargs] [] |}.

Definition to_object (self : t) : pyobj := PyQ (condition self).

(** [other.condition]: of the objects of the universe a [QueryObject]
    alone has this attribute. *)
Definition condition_of (other : pyobj) : res ConditionOperator :=
  match other with
  | PyQ c => Return c
  | _ =>
      raise AttributeError
        ("'" ++ type_name (type other) ++ "' object has no attribute 'condition'") []
  end.

Definition __or__ (self : t) (other : pyobj) : res ConditionOperator :=
  c <- condition_of other ;;
  Return (ConditionOperator.__init__ Or [PyCond (condition self); PyCond c] []).

Definition __and__ (self : t) (other : pyobj) : res ConditionOperator :=
  c <- condition_of other ;;
  Return (ConditionOperator.__init__ And [PyCond (condition self); PyCond c] []).

Definition eval (self : t) : res (string * list pyobj) :=
  ConditionOperator.eval (condition self).

End QueryObject.

Abbreviation QueryObject := QueryObject.t.
Abbreviation Q := QueryObject.__init__.

(** ** The operators [|] and [&] on Q objects and trees

    [a | b] calls [type(a).__or__(a, b)] when the class of [a] defines it.
    [ConditionOperator], [And] and [Or] define neither [__or__] nor
    [__and__], and no class of the module defines the reflected methods,
    so with such a left operand the interpreter raises [TypeError]. *)

Inductive combinable : Type :=
| OfQ (q : QueryObject)
| OfTree (c : ConditionOperator).

Definition object_of (a : combinable) : pyobj :=
  match a with
  | OfQ q => QueryObject.to_object q
  | OfTree c => PyCond c
  end.

Definition unsupported_operand {A : Type} (op : string) (a b : pyobj) : res A :=
  raise TypeError
    ("unsupported operand type(s) for " ++ op ++ ": '" ++ type_name (type a)
       ++ "' and '" ++ type_name (type b) ++ "'") [].

Definition or_ (a b : combinable) : res combinable :=
  match a with
  | OfQ q => c <- QueryObject.__or__ q (object_of b) ;; Return (OfTree c)
  | OfTree _ => unsupported_operand "|" (object_of a) (object_of b)
  end.

Definition and_ (a b : combinable) : res combinable :=
  match a with
  | OfQ q => c <- QueryObject.__and__ q (object_of b) ;; Return (OfTree c)
  | OfTree _ => unsupported_operand "&" (object_of a) (object_of b)
  end.

(** [a.eval()] of a Q or a tree. *)
Definition eval_combinable (a : combinable) : res (string * list pyobj) :=
  match a with
  | OfQ q => QueryObject.eval q
  | OfTree c => ConditionOperator.eval c
  end.

(** ** Observations on trees and fragments, used in the statements *)

(** [isinstance(v, FieldObject)] *)
Definition is_field (v : pyobj) : bool :=
  match v with PyF _ => true | _ => false end.

(** [isinstance(o, (list, tuple))], [isinstance(o, dict)] and
    [isinstance(o, ConditionOperator)]. *)
Definition is_sequence (o : pyobj) : bool :=
  match o with PyList _ | PyTuple _ => true | _ => false end.

Definition is_mapping (o : pyobj) : bool :=
  match o with PyDict _ => true | _ => false end.

Definition is_operator (o : pyobj) : bool :=
  match o with PyCond _ => true | _ => false end.

(** The entry of the value sequence that stands for the dict value [v]. *)
Definition mark (v : pyobj) : pyobj :=
  if is_field v then NOT_A_VALUE else v.

(** The dict values of a tree, left to right. *)
Fixpoint leaf_values (t : pyobj) : list pyobj :=
  match t with
  | PyList l | PyTuple l => flat_map leaf_values l
  | PyDict d => map snd d
  | PyCond c => leaf_values_cond c
  | _ => []
  end
with leaf_values_cond (c : ConditionOperator) : list pyobj :=
  match c with
  | Instance _ (Some t) => leaf_values t
  | Instance _ None => []
  end.

(** The tree with [f] applied to every dict value that is not a
    [FieldObject]; keys, field references and structure stay. *)
Definition map_item (f : pyobj -> pyobj) (kv : string * pyobj) : string * pyobj :=
  (fst kv, if is_field (snd kv) then snd kv else f (snd kv)).

Fixpoint map_values (f : pyobj -> pyobj) (t : pyobj) : pyobj :=
  match t with
  | PyList l => PyList (map (map_values f) l)
  | PyTuple l => PyTuple (map (map_values f) l)
  | PyDict d => PyDict (map (map_item f) d)
  | PyCond c => PyCond (map_values_cond f c)
  | _ => t
  end
with map_values_cond (f : pyobj -> pyobj) (c : ConditionOperator) : ConditionOperator :=
  match c with
  | Instance cls (Some t) => Instance cls (Some (map_values f t))
  | Instance cls None => c
  end.

(** Two trees have the same skeleton when they differ at most in dict
    values that are not field references. *)
Definition skeleton (c : ConditionOperator) : ConditionOperator :=
  map_values_cond (fun _ => PyNone) c.

(** The fragment of a successful evaluation. *)
Definition fragment_of (r : res (string * list pyobj)) : option string :=
  match r with
  | Return v => Some (fst v)
  | Raise _ => None
  end.

(** The entries a call of [parse_conditions] appends to [result]. *)
Definition entries (t : pyobj) : option (list entry) :=
  match ConditionOperator.parse_conditions t [] with
  | Return r => Some (fst r)
  | Raise _ => None
  end.

Definition entries_of_member (cond : pyobj) : option (list entry) :=
  match cond with
  | PyCond c =>
      match ConditionOperator.eval c with
      | Return val => Some [(Prepared (fst val), snd val)]
      | Raise _ => None
      end
  | _ => entries cond
  end.

Fixpoint entries_each (l : list pyobj) : option (list entry) :=
  match l with
  | [] => Some []
  | cond :: rest =>
      match entries_of_member cond, entries_each rest with
      | Some es, Some es' => Some (es ++ es')%list
      | _, _ => None
      end
  end.

(** The loop of [parse_conditions] over the members of a sequence. *)
Fixpoint parse_each (l : list pyobj) (result : list entry) : res (list entry) :=
  match l with
  | [] => Return result
  | cond :: rest =>
      match cond with
      | PyCond c =>
          val <- ConditionOperator.eval c ;;
          parse_each rest (result ++ [(Prepared (fst val), snd val)])%list
      | _ =>
          r <- ConditionOperator.parse_conditions cond result ;;
          parse_each rest (fst r)
      end
  end.

(** No character of [s] is a percent sign. *)
Fixpoint percent_free (s : string) : bool :=
  match s with
  | EmptyString => true
  | String c rest => negb (Ascii.eqb c "%") && percent_free rest
  end.

Definition clean_item (kv : string * pyobj) : bool :=
  percent_free (fst kv)
  && match snd kv with
     | PyF f => percent_free (FieldObject.eval f)
     | _ => true
     end.

(** No shorthand key and no field reference of the tree holds a percent
    sign. *)
Fixpoint clean (t : pyobj) : bool :=
  match t with
  | PyList l | PyTuple l => forallb clean l
  | PyDict d => forallb clean_item d
  | PyCond c => clean_cond c
  | _ => true
  end
with clean_cond (c : ConditionOperator) : bool :=
  match c with
  | Instance _ (Some t) => clean t
  | Instance _ None => true
  end.

(** The number of placeholders [%s] in a fragment. *)
Fixpoint count_placeholders (s : string) : nat :=
  match s with
  | EmptyString => 0
  | String c rest =>
      (if String.prefix "%s" s then 1 else 0) + count_placeholders rest
  end.

Section Driver.

(** How the executing driver writes a bound value into the statement. *)
Variable quote : pyobj -> string.

(** The driver's substitution: each [%s], left to right, takes the next
    value.  The answer is the text and the values left over, and there
    is none when the values run out. *)
Fixpoint fill (s : string) (values : list pyobj) : option (string * list pyobj) :=
  match s with
  | EmptyString => Some ("", values)
  | String c rest =>
      let keep :=
        option_map (fun r => (String c (fst r), snd r)) (fill rest values) in
      match rest with
      | String c' rest' =>
          if Ascii.eqb c "%" && Ascii.eqb c' "s"
          then match values with
               | v :: values' =>
                   option_map (fun r => (quote v ++ fst r, snd r))
                     (fill rest' values')
               | [] => None
               end
          else keep
      | EmptyString => keep
      end
  end.

(** A bound value written in place, the way a field reference is, and
    the tree in which every bound value is. *)
Definition in_place (v : pyobj) : pyobj := PyF (F (quote v)).

Definition literal (c : ConditionOperator) : ConditionOperator :=
  map_values_cond in_place c.

End Driver.

(** The values of [l] that are bound, in order. *)
Definition bound (l : list pyobj) : list pyobj :=
  filter (fun v => negb (is_field v)) l.

(** A field name the separator does not cut: it holds no [__] and does
    not end with an underscore. *)
Fixpoint ends_with (c : ascii) (s : string) : bool :=
  match s with
  | EmptyString => false
  | String a EmptyString => Ascii.eqb a c
  | String _ rest => ends_with c rest
  end.

Definition plain_name (field : string) : Prop :=
  split ConditionOperator.OP_SEPARATOR field = [field] /\ ends_with "_" field = false.

(** What an entry adds to the tokens. *)
Definition part_tokens (p : sql_part) : list string :=
  match p with
  | Tokens l => l
  | Prepared s => [s]
  end.

Definition tokens_of (e : entry) : list string := part_tokens (fst e).


(** The fragment [And.eval] and [Or.eval] build from the tokens. *)
Definition wrap (cls : operator_class) (tokens : list string) : string :=
  join " " ["("; join (ConditionOperator.connective cls) tokens; ")"].


(** [parse_conditions] on [t] appends the entries of [t] to any [result]. *)
Definition framed (t : pyobj) : Prop :=
  forall result,
    match entries t with
    | Some es =>
        ConditionOperator.parse_conditions t result
        = Return ((result ++ es)%list, ConditionOperator.collect (result ++ es))
    | None => exists e, ConditionOperator.parse_conditions t result = Raise e
    end.

(** ** The objects of the examples *)

Module Examples.

(** [And({'a': va}, Or({'b': vb}, {'c': vc}))] *)
Definition nested_with (va vb vc : pyobj) : ConditionOperator :=
  ConditionOperator.__init__ And
    [ PyDict [("a", va)];
      PyCond (ConditionOperator.__init__ Or
                [PyDict [("b", vb)]; PyDict [("c", vc)]] []) ] [].

(** [And({'a': 1}, Or({'b': 2}, {'c': 3}))] *)
Definition nested_dicts : ConditionOperator :=
  ConditionOperator.__init__ And
    [ PyDict [("a", PyInt 1)];
      PyCond (ConditionOperator.__init__ Or
                [PyDict [("b", PyInt 2)]; PyDict [("c", PyInt 3)]] []) ] [].

(** [And({'a': 1}, Or(Q(b=2), Q(c=3)))] *)
Definition nested_Qs : ConditionOperator :=
  ConditionOperator.__init__ And
    [ PyDict [("a", PyInt 1)];
      PyCond (ConditionOperator.__init__ Or
                [ QueryObject.to_object (Q [("b", PyInt 2)]);
                  QueryObject.to_object (Q [("c", PyInt 3)]) ] []) ] [].

(** [FieldReference('total') + 1] *)
Definition total_plus_1 : FieldObject :=
  FieldObject.__add__ (F "total") 1%Z.

(** [Operand('total', '=', FieldReference('total') + 1)] *)
Definition total_operand : Operand :=
  {| name := "total"; operator := Some "="; value := PyF total_plus_1 |}.

(** [And(total=F('total') + 1)] *)
Definition total_tree : ConditionOperator :=
  ConditionOperator.__init__ And [] [("total", PyF total_plus_1)].

(** [Or({'n__gt': 0, 'balance': F('credit') - 10})] *)
Definition balance_tree : ConditionOperator :=
  ConditionOperator.__init__ Or
    [PyDict [ ("n__gt", PyInt 0);
              ("balance", PyF (FieldObject.__sub__ (F "credit") 10%Z)) ]] [].

(** [And({'%s': 1})] *)
Definition percent_key_tree : ConditionOperator :=
  ConditionOperator.__init__ And [PyDict [("%s", PyInt 1)]] [].

(** [Q(a=1)], [Q(b=2)], [Q(c=3)] *)
Definition Qa : QueryObject := Q [("a", PyInt 1)].
Definition Qb : QueryObject := Q [("b", PyInt 2)].
Definition Qc : QueryObject := Q [("c", PyInt 3)].

(** [Or(Q(a=1), Q(b=2))] *)
Definition Or_of_Qs : ConditionOperator :=
  ConditionOperator.__init__ Or
    [QueryObject.to_object Qa; QueryObject.to_object Qb] [].

(** [Or(Q(a=1).condition, Q(b=2).condition)] *)
Definition Or_of_conditions : ConditionOperator :=
  ConditionOperator.__init__ Or
    [PyCond (QueryObject.condition Qa); PyCond (QueryObject.condition Qb)] [].

(** [And({'t__f__bogus': 1})] *)
Definition bogus_suffix_tree : ConditionOperator :=
  ConditionOperator.__init__ And [PyDict [("t__f__bogus", PyInt 1)]] [].

(** [And(5)] *)
Definition And_of_5 : ConditionOperator :=
  ConditionOperator.__init__ And [PyInt 5] [].

(** [F('b')] as an object at some address. *)
Definition Fb_object : located FieldObject := At 140234866205712 (F "b").

(** [And({'user': user}, Or({'password': password, 'attempts__lt': 3}))] *)
Definition login_tree (user password : pyobj) : ConditionOperator :=
  ConditionOperator.__init__ And
    [PyDict [("user", user)];
     PyCond (ConditionOperator.__init__ Or
               [PyDict [("password", password); ("attempts__lt", PyInt 3)]] [])] [].

End Examples.

(** What the loop of [parse_conditions] does with a member: an And or Or
    is evaluated, any other member is parsed. *)
Definition on_member (P : pyobj -> Prop) (R : ConditionOperator -> Prop)
  (x : pyobj) : Prop :=
  match x with
  | PyCond c => R c
  | _ => P x
  end.

(** The value sequence of an accepted tree is made of its dict values,
    left to right, each field reference replaced by the marker. *)
Definition values_in_order (t : pyobj) : Prop :=
  forall es, entries t = Some es -> flat_map snd es = map mark (leaf_values t).

Definition values_in_order_cond (c : ConditionOperator) : Prop :=
  forall v, ConditionOperator.eval c = Return v -> snd v = map mark (leaf_values_cond c).

(** The SQL parts of the entries of a tree, and the fragment of an And or
    Or, do not change when [f] is applied to the bound values. *)
Definition parts_stable (f : pyobj -> pyobj) (t : pyobj) : Prop :=
  option_map (map fst) (entries (map_values f t)) = option_map (map fst) (entries t).

Definition fragment_stable (f : pyobj -> pyobj) (c : ConditionOperator) : Prop :=
  fragment_of (ConditionOperator.eval (map_values_cond f c))
  = fragment_of (ConditionOperator.eval c).

(** [fills quote s values s']: the driver's substitution turns [s] into
    [s'], taking exactly [values] from the front of what it is given;
    and [s] does not end in the middle of a placeholder. *)
Definition fills (quote : pyobj -> string) (s : string) (values : list pyobj)
  (s' : string) : Prop :=
  (forall rest, fill quote s (values ++ rest) = Some (s', rest))
  /\ ends_with "%" s = false.

(** The same for a list of tokens, each token taking its share of the
    values. *)
Inductive tokens_fill (quote : pyobj -> string)
  : list string -> list pyobj -> list string -> Prop :=
| tokens_fill_nil : tokens_fill quote [] [] []
| tokens_fill_cons tok vs tok' toks vss toks' :
    fills quote tok vs tok' ->
    tokens_fill quote toks vss toks' ->
    tokens_fill quote (tok :: toks) (vs ++ vss) (tok' :: toks').

(** Substituting the bound dict values of a tree into what it evaluates
    to gives what the tree with the values written in place evaluates to. *)
Definition aligned (quote : pyobj -> string) (t : pyobj) : Prop :=
  clean t = true ->
  forall es, entries t = Some es ->
    exists es',
      entries (map_values (in_place quote) t) = Some es'
      /\ tokens_fill quote (flat_map tokens_of es) (bound (leaf_values t))
           (flat_map tokens_of es').

Definition aligned_cond (quote : pyobj -> string) (c : ConditionOperator) : Prop :=
  clean_cond c = true ->
  forall v, ConditionOperator.eval c = Return v ->
    exists v',
      ConditionOperator.eval (literal quote c) = Return v'
      /\ fills quote (fst v) (bound (leaf_values_cond c)) (fst v').

(** ** Further observations *)

(** [s[n:]] *)
Fixpoint drop (n : nat) (s : string) : string :=
  match n, s with
  | O, _ => s
  | S k, String _ rest => drop k rest
  | S _, EmptyString => ""
  end.

(** One turn of the loop of [parse_conditions] over the members, as a
    function of the member and of [result]. *)
Definition parse_member (cond : pyobj) (result : list entry) : res (list entry) :=
  match cond with
  | PyCond c =>
      val <- ConditionOperator.eval c ;;
      Return (result ++ [(Prepared (fst val), snd val)])%list
  | _ =>
      r <- ConditionOperator.parse_conditions cond result ;;
      Return (fst r)
  end.

(** The key splits into at most three parts. *)
Definition key_arity_ok (key : string) : bool :=
  Nat.leb (length (split ConditionOperator.OP_SEPARATOR key)) 3.

(** The conditions the evaluator accepts: sequences of accepted members,
    dicts whose keys have at most three parts, and, as members, And and
    Or objects whose conditions are set and accepted. *)
Fixpoint acceptable (t : pyobj) : bool :=
  match t with
  | PyList l | PyTuple l =>
      forallb (fun x => match x with
                        | PyCond c => acceptable_cond c
                        | _ => acceptable x
                        end) l
  | PyDict d => forallb (fun kv => key_arity_ok (fst kv)) d
  | _ => false
  end
with acceptable_cond (c : ConditionOperator) : bool :=
  match c with
  | Instance _ (Some t) => acceptable t
  | Instance _ None => false
  end.

Definition acceptable_member (x : pyobj) : bool :=
  match x with
  | PyCond c => acceptable_cond c
  | _ => acceptable x
  end.

Definition accepted (t : pyobj) : Prop :=
  acceptable t = true <-> exists es, entries t = Some es.

Definition accepted_cond (c : ConditionOperator) : Prop :=
  acceptable_cond c = true <-> exists v, ConditionOperator.eval c = Return v.

(** Conditions that hold no dict item and no And or Or: empty sequences
    and dicts, nested at will. *)
Fixpoint hollow (t : pyobj) : bool :=
  match t with
  | PyList l | PyTuple l => forallb hollow l
  | PyDict [] => true
  | _ => false
  end.

(** * Properties *)

(** ** Induction on trees *)

Section TreeInduction.

Variable P : pyobj -> Prop.
Variable R : ConditionOperator -> Prop.
Hypothesis Hlist : forall l, Forall P l -> P (PyList l).
Hypothesis Htuple : forall l, Forall P l -> P (PyTuple l).
Hypothesis Hcond : forall c, R c -> P (PyCond c).
Hypothesis Hother :
  forall o, is_sequence o = false -> is_operator o = false -> P o.
Hypothesis Hset : forall cls t, P t -> R (Instance cls (Some t)).
Hypothesis Hunset : forall cls, R (Instance cls None).

Lemma tree_ind : forall t, P t.
Proof.
  fix IH 1. intros t.
  assert (members : forall l, Forall P l).
  { intros l. induction l as [|x l IHl]; constructor; [apply IH | exact IHl]. }
  destruct t as [ | b | z | s | l | l | d | | f | o | c | c ];
    try (apply Hother; reflexivity).
  - apply Hlist, members.
  - apply Htuple, members.
  - apply Hcond. destruct c as [cls [t|]].
    + apply Hset, IH.
    + apply Hunset.
Qed.

End TreeInduction.

(** Induction along the evaluation: a member of a sequence that is an And
    or Or is evaluated, any other member is parsed. *)
Section MemberInduction.

Variable P : pyobj -> Prop.
Variable R : ConditionOperator -> Prop.
Hypothesis Hlist : forall l, Forall (on_member P R) l -> P (PyList l).
Hypothesis Htuple : forall l, Forall (on_member P R) l -> P (PyTuple l).
Hypothesis Hother : forall o, is_sequence o = false -> P o.
Hypothesis Hset : forall cls t, P t -> R (Instance cls (Some t)).
Hypothesis Hunset : forall cls, R (Instance cls None).

Lemma member_ind : (forall t, P t) /\ (forall c, R c).
Proof.
  assert (H : forall t, P t /\ on_member P R t).
  { apply (tree_ind (fun t => P t /\ on_member P R t) R).
    - intros l Hl. assert (P (PyList l)); [|now split].
      apply Hlist. eapply Forall_impl; [|exact Hl]. now intros x [_ Hx].
    - intros l Hl. assert (P (PyTuple l)); [|now split].
      apply Htuple. eapply Forall_impl; [|exact Hl]. now intros x [_ Hx].
    - intros c Hc. split; [now apply Hother | exact Hc].
    - intros o Hs Ho. assert (P o) by now apply Hother.
      split; [assumption|]. now destruct o.
    - intros cls t [Ht _]. now apply Hset.
    - exact Hunset. }
  split.
  - intros t. apply H.
  - intros [cls [t|]]; [apply Hset, H | apply Hunset].
Qed.

End MemberInduction.

(** ** The error monad *)

Lemma bind_Return {A B : Type} (m : res A) (k : A -> res B) (b : B) :
  bind m k = Return b -> exists a, m = Return a /\ k a = Return b.
Proof.
  destruct m as [a|e]; simpl; intros H; [exists a; auto | discriminate].
Qed.

(** ** [parse_conditions] and its list [result] *)

Lemma parse_each_loop (l : list pyobj) (result : list entry) :
  ConditionOperator.parse_conditions (PyList l) result
  = (result' <- parse_each l result ;;
     Return (result', ConditionOperator.collect result'))
  /\ ConditionOperator.parse_conditions (PyTuple l) result
     = (result' <- parse_each l result ;;
        Return (result', ConditionOperator.collect result')).
Proof.
  split; reflexivity.
Qed.

Lemma collect_flat (result : list entry) :
  ConditionOperator.collect result = (flat_map tokens_of result, flat_map snd result).
Proof.
  unfold ConditionOperator.collect.
  assert (gen : forall (es : list entry) (tokens : list string) (values : list pyobj),
    fold_left
      (fun (acc : list string * list pyobj) (e : entry) =>
         let '(tokens, values) := acc in
         let '(sql_str, val_list) := e in
         (match sql_str with
          | Prepared s => tokens ++ [s]
          | Tokens l => tokens ++ l
          end, values ++ val_list)%list)
      es (tokens, values)
    = ((tokens ++ flat_map tokens_of es)%list, (values ++ flat_map snd es)%list)).
  { induction es as [|[sql vals] es IH]; intros tokens values; simpl.
    - now rewrite !app_nil_r.
    - rewrite IH. unfold tokens_of at 2. simpl.
      destruct sql; simpl; now rewrite <- !app_assoc. }
  apply gen.
Qed.

Lemma entries_dict (d : dict) :
  entries (PyDict d)
  = match ConditionOperator.parse_dict_condition d with
    | Return operands =>
        Some [(Tokens (fst (ConditionOperator._expand_operands operands)),
               snd (ConditionOperator._expand_operands operands))]
    | Raise _ => None
    end.
Proof.
  unfold entries. simpl.
  destruct (ConditionOperator.parse_dict_condition d) as [operands|e]; simpl; [|reflexivity].
  now destruct (ConditionOperator._expand_operands operands).
Qed.

Lemma entries_other (o : pyobj) :
  is_sequence o = false -> is_mapping o = false -> entries o = None.
Proof.
  destruct o; simpl; intros; try discriminate; reflexivity.
Qed.

Lemma parse_each_frame (l : list pyobj) :
  Forall framed l ->
  forall result,
    match entries_each l with
    | Some es => parse_each l result = Return (result ++ es)%list
    | None => exists e, parse_each l result = Raise e
    end.
Proof.
  induction 1 as [|x l Hx _ IH]; intros result; simpl.
  - now rewrite app_nil_r.
  - assert (other : is_operator x = false ->
      match
        match entries x, entries_each l with
        | Some es, Some es' => Some (es ++ es')%list
        | _, _ => None
        end
      with
      | Some es =>
          (r <- ConditionOperator.parse_conditions x result ;; parse_each l (fst r))
          = Return (result ++ es)%list
      | None =>
          exists e,
            (r <- ConditionOperator.parse_conditions x result ;; parse_each l (fst r))
            = Raise e
      end).
    { intros _. specialize (Hx result).
      destruct (entries x) as [es|].
      - rewrite Hx. simpl. specialize (IH (result ++ es)%list).
        destruct (entries_each l) as [es'|].
        + now rewrite IH, app_assoc.
        + exact IH.
      - destruct Hx as [e He]. rewrite He. now exists e. }
    destruct x; try (apply other; reflexivity).
    simpl. destruct (ConditionOperator.eval c) as [val|e]; simpl.
    + specialize (IH (result ++ [(Prepared (fst val), snd val)])%list).
      destruct (entries_each l) as [es'|].
      * now rewrite IH, <- app_assoc.
      * exact IH.
    + now exists e.
Qed.

Lemma entries_seq_framed (l : list pyobj) :
  Forall framed l ->
  entries (PyList l) = entries_each l /\ entries (PyTuple l) = entries_each l.
Proof.
  intros Hl. pose proof (parse_each_frame l Hl []) as H.
  unfold entries. rewrite (proj1 (parse_each_loop l [])), (proj2 (parse_each_loop l [])).
  destruct (entries_each l) as [es|].
  - rewrite H. now split.
  - destruct H as [e He]. rewrite He. now split.
Qed.

Lemma seq_framed (l : list pyobj) :
  Forall framed l -> framed (PyList l) /\ framed (PyTuple l).
Proof.
  intros Hl.
  destruct (entries_seq_framed l Hl) as [El Et].
  split; intros result; [rewrite El | rewrite Et];
    [rewrite (proj1 (parse_each_loop l result)) | rewrite (proj2 (parse_each_loop l result))];
    pose proof (parse_each_frame l Hl result) as H;
    (destruct (entries_each l) as [es|];
     [now rewrite H | destruct H as [e He]; rewrite He; now exists e]).
Qed.

Lemma parse_conditions_frame : forall t, framed t.
Proof.
  apply (tree_ind framed (fun _ => True)); auto.
  - intros l Hl. apply (seq_framed l Hl).
  - intros l Hl. apply (seq_framed l Hl).
  - intros c _ result. simpl. eexists. reflexivity.
  - intros o Hs Ho result. destruct o; try discriminate;
      try (simpl; eexists; reflexivity).
    rewrite entries_dict. simpl.
    destruct (ConditionOperator.parse_dict_condition d) as [operands|e]; simpl.
    + now destruct (ConditionOperator._expand_operands operands).
    + now exists e.
Qed.

Lemma entries_seq (l : list pyobj) :
  entries (PyList l) = entries_each l /\ entries (PyTuple l) = entries_each l.
Proof.
  apply entries_seq_framed, Forall_forall. intros x _. apply parse_conditions_frame.
Qed.

Lemma eval_entries (cls : operator_class) (t : pyobj) :
  match entries t with
  | Some es =>
      ConditionOperator.eval (Instance cls (Some t))
      = Return (wrap cls (flat_map tokens_of es), flat_map snd es)
  | None => exists e, ConditionOperator.eval (Instance cls (Some t)) = Raise e
  end.
Proof.
  pose proof (parse_conditions_frame t []) as H. simpl.
  destruct (entries t) as [es|].
  - rewrite H. simpl. now rewrite collect_flat.
  - destruct H as [e He]. rewrite He. now exists e.
Qed.

Lemma eval_Return (cls : operator_class) (t : pyobj) (v : string * list pyobj) :
  ConditionOperator.eval (Instance cls (Some t)) = Return v ->
  exists es, entries t = Some es
             /\ v = (wrap cls (flat_map tokens_of es), flat_map snd es).
Proof.
  pose proof (eval_entries cls t) as H. intros Hv.
  destruct (entries t) as [es|].
  - exists es. split; [reflexivity|]. congruence.
  - destruct H as [e He]. congruence.
Qed.

(** ** Strings *)

Lemma append_assoc (a b c : string) : ((a ++ b) ++ c = a ++ (b ++ c))%string.
Proof.
  induction a as [|x a IH]; simpl; [reflexivity | now rewrite IH].
Qed.

Lemma append_nil_r (a : string) : (a ++ "" = a)%string.
Proof.
  induction a as [|x a IH]; simpl; [reflexivity | now rewrite IH].
Qed.

Lemma prefix_cons (a b : ascii) (s1 s2 : string) :
  String.prefix (String a s1) (String b s2)
  = (Ascii.eqb a b && String.prefix s1 s2).
Proof.
  change (String.prefix (String a s1) (String b s2))
    with (if ascii_dec a b then String.prefix s1 s2 else false).
  destruct (ascii_dec a b) as [->|Hne].
  - now rewrite Ascii.eqb_refl.
  - apply Ascii.eqb_neq in Hne. now rewrite Hne.
Qed.

Lemma prefix_nil (s : string) : String.prefix "" s = true.
Proof.
  now destruct s.
Qed.

Lemma prefix_sep_cons (c : ascii) (s : string) :
  String.prefix "__" (String c s) = true ->
  c = "_"%char /\ exists s', s = String "_" s'.
Proof.
  rewrite prefix_cons. intros H. apply andb_prop in H. destruct H as [Hc Hs].
  apply Ascii.eqb_eq in Hc. subst c. split; [reflexivity|].
  destruct s as [|c' s']; [discriminate Hs|].
  rewrite prefix_cons in Hs. apply andb_prop in Hs. destruct Hs as [Hc' _].
  apply Ascii.eqb_eq in Hc'. subst c'. now exists s'.
Qed.

Lemma split_from_nonempty (sep s : string) (skip : nat) :
  split_from sep s skip <> [].
Proof.
  revert skip. induction s as [|c s IH]; intros skip; cbn [split_from]; [discriminate|].
  destruct skip as [|k]; [|apply IH].
  destruct (String.prefix sep (String c s)); [discriminate|].
  specialize (IH 0). destruct (split_from sep s 0); [contradiction | discriminate].
Qed.

(** A plain field name followed by the separator is the first part of the
    split. *)
Lemma split_plain (field rest : string) :
  plain_name field ->
  split ConditionOperator.OP_SEPARATOR (field ++ "__" ++ rest)
  = field :: split ConditionOperator.OP_SEPARATOR rest.
Proof.
  unfold plain_name, split, ConditionOperator.OP_SEPARATOR.
  induction field as [|c f IH]; intros [Hsplit Hend].
  - change ("" ++ "__" ++ rest)%string with (String "_" (String "_" rest)).
    cbn [split_from]. rewrite !prefix_cons, prefix_nil. reflexivity.
  - change (String c f ++ "__" ++ rest)%string with (String c (f ++ "__" ++ rest)).
    cbn [split_from] in Hsplit |- *.
    destruct (String.prefix "__" (String c f)) eqn:Hp.
    { discriminate Hsplit. }
    assert (Hf : split_from "__" f 0 = [f]).
    { pose proof (split_from_nonempty "__" f 0) as Hne.
      destruct (split_from "__" f 0) as [|p ps]; [contradiction|].
      now injection Hsplit as -> ->. }
    assert (Hp' : String.prefix "__" (String c (f ++ "__" ++ rest)) = false).
    { destruct (String.prefix "__" (String c (f ++ "__" ++ rest))) eqn:Hq; [|reflexivity].
      apply prefix_sep_cons in Hq. destruct Hq as [-> [s' Hs']].
      destruct f as [|c' f'].
      - simpl in Hend. discriminate.
      - simpl in Hs'. injection Hs' as -> _.
        rewrite !prefix_cons, prefix_nil in Hp. discriminate Hp. }
    rewrite Hp'. rewrite IH.
    + reflexivity.
    + split; [exact Hf|]. destruct f; [reflexivity | exact Hend].
Qed.

Lemma Operand_eval_bound (n : string) (o : option string) (v : pyobj) :
  is_field v = false ->
  Operand.eval {| name := n; operator := o; value := v |}
  = (n ++ " " ++ format o ++ " %s", v)%string.
Proof.
  destruct v; simpl; intros; try discriminate; reflexivity.
Qed.

Lemma Operand_eval_field (n : string) (o : option string) (f : FieldObject) :
  Operand.eval {| name := n; operator := o; value := PyF f |}
  = (n ++ " " ++ format o ++ " " ++ FieldObject._value f, NOT_A_VALUE)%string.
Proof.
  reflexivity.
Qed.

(** ** Dict conditions *)

Lemma parse_item_suffix (field suffix sql_op : string) (v : pyobj) :
  plain_name field ->
  split ConditionOperator.OP_SEPARATOR suffix = [suffix] ->
  ConditionOperator.get ConditionOperator.OPERATORS suffix = Some sql_op ->
  sql_op <> "" ->
  ConditionOperator.parse_item (field ++ "__" ++ suffix) v
  = Return {| name := field; operator := Some sql_op; value := v |}.
Proof.
  intros Hfield Hsuffix Hget Hne. unfold ConditionOperator.parse_item.
  rewrite (split_plain field suffix Hfield), Hsuffix, Hget.
  unfold ConditionOperator.not_.
  apply String.eqb_neq in Hne. now rewrite Hne.
Qed.

Lemma parse_item_bare (field : string) (v : pyobj) :
  plain_name field ->
  ConditionOperator.parse_item field v
  = Return {| name := field; operator := Some "="; value := v |}.
Proof.
  intros [Hsplit _]. unfold ConditionOperator.parse_item. now rewrite Hsplit.
Qed.

Lemma eval_dict (cls : operator_class) (d : dict) (operands : list Operand) :
  ConditionOperator.parse_dict_condition d = Return operands ->
  ConditionOperator.eval (ConditionOperator.__init__ cls [PyDict d] [])
  = Return (wrap cls (fst (ConditionOperator._expand_operands operands)),
            snd (ConditionOperator._expand_operands operands)).
Proof.
  intros Hd. unfold ConditionOperator.__init__.
  pose proof (eval_entries cls (PyTuple [PyDict d])) as H.
  rewrite (proj2 (entries_seq [PyDict d])) in H.
  cbn [entries_each entries_of_member] in H.
  rewrite entries_dict, Hd in H. cbn [flat_map tokens_of part_tokens fst snd app] in H.
  rewrite !app_nil_r in H. exact H.
Qed.

(** C6. For each of the twelve operator suffixes and its SQL operator,
    the dict condition [{field__suffix: v}], with [field] a plain field
    name and [v] a value that is not a field reference, is parsed into
    the token [field SQL_OP %s] and the value sequence [(v,)], and an And
    or Or over it returns that token in parentheses with [(v,)]; a bare
    key is parsed like the key with the suffix [eq]. *)
Theorem C6_suffix_table (field suffix sql_op : string) (v : pyobj) :
  In (suffix, sql_op)
     [ ("eq", "="); ("gt", ">"); ("lt", "<"); ("gte", ">="); ("lte", "<=");
       ("neq", "!="); ("is", "IS"); ("is_not", "IS NOT"); ("in", "IN");
       ("like", "LIKE"); ("ilike", "ILIKE"); ("similar_to", "SIMILAR TO") ] ->
  plain_name field ->
  is_field v = false ->
  let token := (field ++ " " ++ sql_op ++ " %s")%string in
  ConditionOperator.parse_conditions (PyDict [((field ++ "__" ++ suffix)%string, v)]) []
  = Return ([(Tokens [token], [v])], ([token], [v]))
  /\ (forall cls,
        ConditionOperator.eval
          (ConditionOperator.__init__ cls [PyDict [((field ++ "__" ++ suffix)%string, v)]] [])
        = Return (wrap cls [token], [v]))
  /\ wrap And [token] = ("( " ++ field ++ " " ++ sql_op ++ " %s )")%string
  /\ ConditionOperator.parse_conditions (PyDict [(field, v)]) []
     = ConditionOperator.parse_conditions (PyDict [((field ++ "__eq")%string, v)]) [].
Proof.
  intros Hin Hfield Hv token.
  assert (Hitem : ConditionOperator.parse_item (field ++ "__" ++ suffix) v
                  = Return {| name := field; operator := Some sql_op; value := v |}).
  { simpl in Hin.
    repeat (destruct Hin as [Hin|Hin];
            [injection Hin as <- <-;
             apply parse_item_suffix; [exact Hfield | reflexivity | reflexivity | discriminate]|]).
    contradiction. }
  assert (Hdict : ConditionOperator.parse_dict_condition [((field ++ "__" ++ suffix)%string, v)]
                  = Return [{| name := field; operator := Some sql_op; value := v |}]).
  { cbn [ConditionOperator.parse_dict_condition]. now rewrite Hitem. }
  repeat split.
  - cbn [ConditionOperator.parse_conditions]. rewrite Hdict.
    cbn [bind ConditionOperator._expand_operands].
    rewrite (Operand_eval_bound field (Some sql_op) v Hv). reflexivity.
  - intros cls. rewrite (eval_dict cls _ _ Hdict).
    cbn [ConditionOperator._expand_operands].
    rewrite (Operand_eval_bound field (Some sql_op) v Hv). reflexivity.
  - unfold wrap, join, token. cbn [String.concat ConditionOperator.connective].
    rewrite !append_assoc. reflexivity.
  - cbn [ConditionOperator.parse_conditions ConditionOperator.parse_dict_condition].
    rewrite (parse_item_bare field v Hfield).
    change (field ++ "__eq")%string with (field ++ "__" ++ "eq")%string.
    rewrite (parse_item_suffix field "eq" "=" v Hfield); [reflexivity..|discriminate].
Qed.

Lemma C6_suffix_table_witness :
  plain_name "field"
  /\ is_field (PyStr "a%") = false
  /\ ConditionOperator.parse_conditions (PyDict [("field__similar_to", PyStr "a%")]) []
     = Return ([(Tokens ["field SIMILAR TO %s"], [PyStr "a%"])],
               (["field SIMILAR TO %s"], [PyStr "a%"])).
Proof.
  assert (Hname : plain_name "field") by (split; reflexivity).
  split; [exact Hname|]. split; [reflexivity|].
  refine (proj1 (C6_suffix_table "field" "similar_to" "SIMILAR TO" (PyStr "a%") _ Hname _)).
  - simpl. tauto.
  - reflexivity.
Defined.

Lemma parse_item_three_parts (key a b c : string) (v : pyobj) :
  split ConditionOperator.OP_SEPARATOR key = [a; b; c] ->
  ConditionOperator.parse_item key v
  = Return {| name := a ++ "." ++ b;
              operator := ConditionOperator.get ConditionOperator.OPERATORS c;
              value := v |}.
Proof.
  intros Hsplit. unfold ConditionOperator.parse_item. now rewrite Hsplit.
Qed.

(** C7. The key [t__f__bogus] splits into three parts whose third is no
    operator suffix: the parse does not fail, it returns an Operand for
    [t.f] whose operator is [None], and the And over the dict evaluates
    to a fragment with the text [None] in the place of the operator. *)
Theorem C7_unresolved_suffix_is_not_rejected :
  split ConditionOperator.OP_SEPARATOR "t__f__bogus" = ["t"; "f"; "bogus"]
  /\ ConditionOperator.get ConditionOperator.OPERATORS "bogus" = None
  /\ ConditionOperator.parse_dict_condition [("t__f__bogus", PyInt 1)]
     = Return [{| name := "t.f"; operator := None; value := PyInt 1 |}]
  /\ ConditionOperator.eval Examples.bogus_suffix_tree
     = Return ("( t.f None %s )", [PyInt 1]).
Proof.
  repeat split; reflexivity.
Qed.

(** ** Nodes that are no condition *)

(** C8. A node that is neither a list or tuple, nor a dict, nor an And or
    Or makes [parse_conditions] raise, whatever [result] holds so far,
    and makes the And or Or it is a member of raise.  The message is
    formatted from the node, the type of the node and [result] before
    the raise: when these can be formatted the exception is of the class
    [Exception] and carries the three of them; when formatting meets an
    And or Or without conditions, in the node or in [result], the
    [AttributeError] of that object is what is raised. *)
Theorem C8_other_node_raises (o : pyobj) (result : list entry) (cls : operator_class) :
  is_sequence o = false ->
  is_mapping o = false ->
  is_operator o = false ->
  (unset_in o = None ->
   unset_in_arg (ArgResult result) = None ->
   ConditionOperator.parse_conditions o result
   = Raise {| exn_class_of := Exception;
              template := "Unexpected error. Debug: conditions=%s (%s), result=%s";
              args := [ArgObj o; ArgType (type o); ArgResult result] |})
  /\ (unset_in o = None ->
      ConditionOperator.eval (ConditionOperator.__init__ cls [o] [])
      = Raise {| exn_class_of := Exception;
                 template := "Unexpected error. Debug: conditions=%s (%s), result=%s";
                 args := [ArgObj o; ArgType (type o); ArgResult []] |})
  /\ (forall cls',
        unset_in o = Some cls' ->
        ConditionOperator.parse_conditions o result = Raise (no_conditions cls')
        /\ ConditionOperator.eval (ConditionOperator.__init__ cls [o] [])
           = Raise (no_conditions cls'))
  /\ (forall cls',
        unset_in o = None ->
        unset_in_arg (ArgResult result) = Some cls' ->
        ConditionOperator.parse_conditions o result = Raise (no_conditions cls')).
Proof.
  intros Hs Hm Ho.
  assert (Hparse : forall r,
            ConditionOperator.parse_conditions o r
            = raise Exception "Unexpected error. Debug: conditions=%s (%s), result=%s"
                [ArgObj o; ArgType (type o); ArgResult r]).
  { intros r. destruct o; try discriminate; reflexivity. }
  assert (Heval : ConditionOperator.eval (ConditionOperator.__init__ cls [o] [])
                  = raise Exception "Unexpected error. Debug: conditions=%s (%s), result=%s"
                      [ArgObj o; ArgType (type o); ArgResult []]).
  { destruct o; try discriminate; reflexivity. }
  rewrite Heval, Hparse. unfold raise. cbn [first_some unset_in_arg].
  repeat split.
  - intros Hnode Hresult. cbn [unset_in_arg] in Hresult. now rewrite Hnode, Hresult.
  - intros Hnode. now rewrite Hnode.
  - now rewrite H.
  - now rewrite H.
  - intros cls' Hnode Hresult. cbn [unset_in_arg] in Hresult. now rewrite Hnode, Hresult.
Qed.

Lemma C8_other_node_raises_witness :
  is_sequence (PyInt 5) = false
  /\ is_mapping (PyInt 5) = false
  /\ is_operator (PyInt 5) = false
  /\ unset_in (PyInt 5) = None
  /\ ConditionOperator.eval Examples.And_of_5
     = Raise {| exn_class_of := Exception;
                template := "Unexpected error. Debug: conditions=%s (%s), result=%s";
                args := [ArgObj (PyInt 5); ArgType int_t; ArgResult []] |}.
Proof.
  repeat (split; [reflexivity|]).
  exact (proj1 (proj2 (C8_other_node_raises (PyInt 5) [] And eq_refl eq_refl eq_refl))
           eq_refl).
Defined.

(** C8, as stated, fails: the exception [And(5)] raises is of the class
    [Exception], not of the class [TypeError]. *)
Lemma C8_not_a_TypeError :
  exists e,
    ConditionOperator.eval Examples.And_of_5 = Raise e
    /\ exn_class_of e = Exception
    /\ exn_class_of e <> TypeError.
Proof.
  eexists. split; [reflexivity|]. split; [reflexivity | discriminate].
Qed.

(** ** Nested trees *)

(** C2, as stated, fails: with [Q(b=2)] and [Q(c=3)] as the members of
    the [Or] the evaluation raises and returns no fragment. *)
Lemma C2_nested_Qs_raise :
  ConditionOperator.eval Examples.nested_Qs
  <> Return ("( a = %s AND ( b = %s OR c = %s ) )", [PyInt 1; PyInt 2; PyInt 3])
  /\ fragment_of (ConditionOperator.eval Examples.nested_Qs) = None.
Proof.
  split; [discriminate | reflexivity].
Qed.

(** ** Q and the combinators *)

Lemma eval_pair (cls : operator_class) (c1 c2 : ConditionOperator)
      (f1 f2 : string) (v1 v2 : list pyobj) :
  ConditionOperator.eval c1 = Return (f1, v1) ->
  ConditionOperator.eval c2 = Return (f2, v2) ->
  ConditionOperator.eval (ConditionOperator.__init__ cls [PyCond c1; PyCond c2] [])
  = Return (("( " ++ f1 ++ ConditionOperator.connective cls ++ f2 ++ " )")%string,
            (v1 ++ v2)%list).
Proof.
  intros H1 H2. unfold ConditionOperator.__init__.
  pose proof (eval_entries cls (PyTuple [PyCond c1; PyCond c2])) as H.
  rewrite (proj2 (entries_seq _)) in H.
  cbn [entries_each entries_of_member] in H. rewrite H1, H2 in H.
  cbn [flat_map tokens_of part_tokens fst snd app] in H. rewrite app_nil_r in H. rewrite H.
  unfold wrap, join. cbn [String.concat]. rewrite !append_assoc. reflexivity.
Qed.

(** C4. [q1 | q2] is the tree [Or(q1.condition, q2.condition)], so the
    two evaluate alike; for [Q(a=1)] and [Q(b=2)] both give the fragment
    [( ( a = %s ) OR ( b = %s ) )] with the values [(1, 2)]. *)
Theorem C4_pipe_is_Or_of_conditions (q1 q2 : QueryObject) :
  (t <- or_ (OfQ q1) (OfQ q2) ;; eval_combinable t)
  = ConditionOperator.eval
      (ConditionOperator.__init__ Or
         [PyCond (QueryObject.condition q1); PyCond (QueryObject.condition q2)] [])
  /\ (t <- or_ (OfQ Examples.Qa) (OfQ Examples.Qb) ;; eval_combinable t)
     = Return ("( ( a = %s ) OR ( b = %s ) )", [PyInt 1; PyInt 2])
  /\ ConditionOperator.eval Examples.Or_of_conditions
     = Return ("( ( a = %s ) OR ( b = %s ) )", [PyInt 1; PyInt 2]).
Proof.
  repeat split; reflexivity.
Qed.

(** C4, as stated, fails: [Q(a=1) | Q(b=2)] evaluates to a fragment and
    [Or(Q(a=1), Q(b=2))] does not. *)
Lemma C4_Or_of_Qs_differs :
  (t <- or_ (OfQ Examples.Qa) (OfQ Examples.Qb) ;; eval_combinable t)
  <> ConditionOperator.eval Examples.Or_of_Qs
  /\ fragment_of (ConditionOperator.eval Examples.Or_of_Qs) = None.
Proof.
  split; [discriminate | reflexivity].
Qed.

(** C5. On two Q objects [|] returns the Or over their two And trees and
    [&] the And over them; the tree evaluates to the two fragments joined
    by the connective, in parentheses, and to the two value sequences in
    order.  The tree returned has no combinator: with a tree as the left
    operand [|] and [&] raise [TypeError], and with a tree as the right
    operand of a Q they raise [AttributeError]. *)
Theorem C5_combinators (q1 q2 : QueryObject) :
  or_ (OfQ q1) (OfQ q2)
  = Return (OfTree (ConditionOperator.__init__ Or
                      [PyCond (QueryObject.condition q1);
                       PyCond (QueryObject.condition q2)] []))
  /\ and_ (OfQ q1) (OfQ q2)
     = Return (OfTree (ConditionOperator.__init__ And
                         [PyCond (QueryObject.condition q1);
                          PyCond (QueryObject.condition q2)] []))
  /\ (forall f1 v1 f2 v2,
        QueryObject.eval q1 = Return (f1, v1) ->
        QueryObject.eval q2 = Return (f2, v2) ->
        (t <- or_ (OfQ q1) (OfQ q2) ;; eval_combinable t)
        = Return (("( " ++ f1 ++ " OR " ++ f2 ++ " )")%string, (v1 ++ v2)%list)
        /\ (t <- and_ (OfQ q1) (OfQ q2) ;; eval_combinable t)
           = Return (("( " ++ f1 ++ " AND " ++ f2 ++ " )")%string, (v1 ++ v2)%list))
  /\ (forall (c : ConditionOperator) (b : combinable),
        exists e e',
          or_ (OfTree c) b = Raise e /\ exn_class_of e = TypeError
          /\ and_ (OfTree c) b = Raise e' /\ exn_class_of e' = TypeError)
  /\ (forall (c : ConditionOperator),
        exists e e',
          or_ (OfQ q1) (OfTree c) = Raise e /\ exn_class_of e = AttributeError
          /\ and_ (OfQ q1) (OfTree c) = Raise e' /\ exn_class_of e' = AttributeError).
Proof.
  split; [reflexivity|]. split; [reflexivity|]. split; [|split].
  - intros f1 v1 f2 v2 H1 H2. unfold QueryObject.eval in H1, H2.
    split; cbn [or_ and_ QueryObject.__or__ QueryObject.__and__ object_of
                QueryObject.to_object QueryObject.condition_of bind eval_combinable].
    + exact (eval_pair Or _ _ _ _ _ _ H1 H2).
    + exact (eval_pair And _ _ _ _ _ _ H1 H2).
  - intros c b. do 2 eexists. repeat split; reflexivity.
  - intros c. do 2 eexists.
    destruct c as [cls conditions]. repeat split; reflexivity.
Qed.

Lemma C5_combinators_witness :
  QueryObject.eval Examples.Qa = Return ("( a = %s )", [PyInt 1])
  /\ QueryObject.eval Examples.Qb = Return ("( b = %s )", [PyInt 2])
  /\ (t <- or_ (OfQ Examples.Qa) (OfQ Examples.Qb) ;; eval_combinable t)
     = Return ("( ( a = %s ) OR ( b = %s ) )", [PyInt 1; PyInt 2]).
Proof.
  split; [reflexivity|]. split; [reflexivity|].
  exact (proj1 (proj1 (proj2 (proj2 (C5_combinators Examples.Qa Examples.Qb)))
                  "( a = %s )" [PyInt 1] "( b = %s )" [PyInt 2] eq_refl eq_refl)).
Defined.

(** C5, as stated, fails: [(Q(a=1) | Q(b=2)) | Q(c=3)] raises, since the
    tree [Q(a=1) | Q(b=2)] has no [|]. *)
Lemma C5_chaining_raises :
  (t <- or_ (OfQ Examples.Qa) (OfQ Examples.Qb) ;; or_ t (OfQ Examples.Qc))
  = Raise {| exn_class_of := TypeError;
             template := "unsupported operand type(s) for |: 'Or' and 'QueryObject'";
             args := [] |}
  /\ fragment_of (t <- or_ (OfQ Examples.Qa) (OfQ Examples.Qb) ;;
                  t' <- or_ t (OfQ Examples.Qc) ;; eval_combinable t') = None.
Proof.
  split; reflexivity.
Qed.

(** ** F arithmetic *)

(** C9. Each arithmetic method returns the field reference whose text is
    the text of the left operand, the operator between spaces, and the
    right operand as [format] writes it; [F('a') + 1] has the text
    [a + 1], and a field reference on the right is written as the plain
    object it is, with its class and address. *)
Theorem C9_arithmetic_text {A : Type} `{Format A} (self : FieldObject) (other : A) :
  FieldObject._value (FieldObject.__add__ self other)
  = (FieldObject._value self ++ " + " ++ format other)%string
  /\ FieldObject._value (FieldObject.__sub__ self other)
     = (FieldObject._value self ++ " - " ++ format other)%string
  /\ FieldObject._value (FieldObject.__mul__ self other)
     = (FieldObject._value self ++ " * " ++ format other)%string
  /\ FieldObject._value (FieldObject.__div__ self other)
     = (FieldObject._value self ++ " / " ++ format other)%string
  /\ FieldObject._value (FieldObject.__truediv__ self other)
     = (FieldObject._value self ++ " / " ++ format other)%string
  /\ FieldObject._value (FieldObject.__floordiv__ self other)
     = (FieldObject._value self ++ " / " ++ format other)%string
  /\ FieldObject.__add__ (F "a") 1%Z = F "a + 1"
  /\ (forall (n : N) (f : FieldObject),
        FieldObject._value (FieldObject.__add__ self (At n f))
        = (FieldObject._value self
           ++ " + <pg_requests.operators.FieldObject object at "
           ++ HexString.of_N n ++ ">")%string).
Proof.
  repeat split; reflexivity.
Qed.

(** C9, as stated, fails: the text of [F('a') + F('b')] is not [a + b]. *)
Lemma C9_F_plus_F_is_not_nested :
  FieldObject._value (FieldObject.__add__ (F "a") Examples.Fb_object)
  = "a + <pg_requests.operators.FieldObject object at 0x7f8af962a410>"
  /\ FieldObject._value (FieldObject.__add__ (F "a") Examples.Fb_object) <> "a + b".
Proof.
  split; [reflexivity | discriminate].
Qed.

(** ** The value sequence *)

Lemma parse_item_value (key : string) (v : pyobj) (op : Operand) :
  ConditionOperator.parse_item key v = Return op -> value op = v.
Proof.
  unfold ConditionOperator.parse_item.
  destruct (split ConditionOperator.OP_SEPARATOR key) as [|k0 [|k1 [|k2 [|k3 ks]]]];
    try discriminate;
    try destruct (ConditionOperator.not_ _);
    intros H; injection H as <-; reflexivity.
Qed.

Lemma Operand_eval_value (op : Operand) :
  snd (Operand.eval op) = mark (value op).
Proof.
  unfold Operand.eval, mark. now destruct (value op).
Qed.

Lemma expand_operands_snd (operands : list Operand) :
  snd (ConditionOperator._expand_operands operands)
  = map (fun op => snd (Operand.eval op)) operands.
Proof.
  induction operands as [|op operands IH]; [reflexivity|].
  cbn [ConditionOperator._expand_operands map].
  destruct (Operand.eval op) as [sql val].
  destruct (ConditionOperator._expand_operands operands) as [tokens values].
  simpl in *. now rewrite IH.
Qed.

Lemma expand_operands_fst (operands : list Operand) :
  fst (ConditionOperator._expand_operands operands)
  = map (fun op => fst (Operand.eval op)) operands.
Proof.
  induction operands as [|op operands IH]; [reflexivity|].
  cbn [ConditionOperator._expand_operands map].
  destruct (Operand.eval op) as [sql val].
  destruct (ConditionOperator._expand_operands operands) as [tokens values].
  simpl in *. now rewrite IH.
Qed.

Lemma parse_dict_condition_cons (key : string) (v : pyobj) (d : dict)
      (operands : list Operand) :
  ConditionOperator.parse_dict_condition ((key, v) :: d) = Return operands ->
  exists op rest,
    ConditionOperator.parse_item key v = Return op
    /\ ConditionOperator.parse_dict_condition d = Return rest
    /\ operands = op :: rest.
Proof.
  cbn [ConditionOperator.parse_dict_condition]. intros H.
  apply bind_Return in H. destruct H as [op [Hop H]].
  apply bind_Return in H. destruct H as [rest [Hrest H]].
  injection H as <-. now exists op, rest.
Qed.

Lemma dict_values (d : dict) (operands : list Operand) :
  ConditionOperator.parse_dict_condition d = Return operands ->
  snd (ConditionOperator._expand_operands operands) = map mark (map snd d).
Proof.
  rewrite expand_operands_snd. revert operands.
  induction d as [|[key v] d IH]; intros operands H.
  - injection H as <-. reflexivity.
  - apply parse_dict_condition_cons in H. destruct H as [op [rest [Hop [Hrest ->]]]].
    cbn [map snd]. rewrite (IH rest Hrest), Operand_eval_value.
    now rewrite (parse_item_value key v op Hop).
Qed.

Lemma entries_each_cons (x : pyobj) (l : list pyobj) (es : list entry) :
  entries_each (x :: l) = Some es ->
  exists ex el,
    entries_of_member x = Some ex /\ entries_each l = Some el /\ es = (ex ++ el)%list.
Proof.
  cbn [entries_each].
  destruct (entries_of_member x) as [ex|]; [|discriminate].
  destruct (entries_each l) as [el|]; [|discriminate].
  intros H. injection H as <-. now exists ex, el.
Qed.

Lemma values_in_order_each (l : list pyobj) :
  Forall (on_member values_in_order values_in_order_cond) l ->
  forall es, entries_each l = Some es ->
             flat_map snd es = map mark (flat_map leaf_values l).
Proof.
  induction 1 as [|x l Hx _ IH]; intros es H.
  - injection H as <-. reflexivity.
  - apply entries_each_cons in H. destruct H as [ex [el [Hex [Hel ->]]]].
    cbn [flat_map]. rewrite flat_map_app, map_app, (IH el Hel). f_equal.
    destruct x; cbn [on_member entries_of_member] in Hx, Hex; try (now apply Hx).
    destruct (ConditionOperator.eval c) as [val|e] eqn:Hc; [|discriminate].
    injection Hex as <-. cbn [flat_map snd]. rewrite app_nil_r. now apply Hx.
Qed.

Lemma entries_values :
  (forall t, values_in_order t) /\ (forall c, values_in_order_cond c).
Proof.
  apply member_ind.
  - intros l Hl es. rewrite (proj1 (entries_seq l)). now apply values_in_order_each.
  - intros l Hl es. rewrite (proj2 (entries_seq l)). now apply values_in_order_each.
  - intros o Hs es. destruct o; try discriminate; try (now rewrite entries_other).
    rewrite entries_dict.
    destruct (ConditionOperator.parse_dict_condition d) as [operands|e] eqn:Hd; [|discriminate].
    intros H. injection H as <-. cbn [flat_map snd leaf_values].
    now rewrite app_nil_r, (dict_values d operands Hd).
  - intros cls t Ht v Hv. apply eval_Return in Hv. destruct Hv as [es [Hes ->]].
    cbn [snd leaf_values_cond]. now apply Ht.
  - intros cls v Hv. discriminate Hv.
Qed.

Lemma percent_free_count (s : string) :
  percent_free s = true -> count_placeholders s = 0.
Proof.
  induction s as [|c s IH]; [reflexivity|].
  cbn [percent_free count_placeholders]. intros H.
  apply andb_prop in H. destruct H as [Hc Hs].
  rewrite (IH Hs), prefix_cons. apply negb_true_iff in Hc.
  rewrite Ascii.eqb_sym, Hc. reflexivity.
Qed.

Lemma percent_free_app (a b : string) :
  percent_free (a ++ b) = percent_free a && percent_free b.
Proof.
  induction a as [|c a IH]; [reflexivity|].
  cbn [append percent_free]. now rewrite IH, andb_assoc.
Qed.

(** C3. An Operand whose value is a field reference evaluates to its
    name, its operator and the text of the reference, separated by
    spaces, and to the marker [NOT_A_VALUE]; when name, operator and text
    hold no percent sign the fragment has no placeholder.  In the value
    sequence of an And or Or every dict value has one entry, in order,
    and the entry of a field reference is the marker itself.
    [Operand('total', '=', F('total') + 1)] evaluates to the fragment
    [total = total + 1] and the marker. *)
Theorem C3_field_reference_operand
        (n : string) (o : option string) (f : FieldObject) :
  Operand.eval {| name := n; operator := o; value := PyF f |}
  = ((n ++ " " ++ format o ++ " " ++ FieldObject._value f)%string, NOT_A_VALUE)
  /\ (percent_free n = true -> percent_free (format o) = true ->
      percent_free (FieldObject._value f) = true ->
      count_placeholders
        (fst (Operand.eval {| name := n; operator := o; value := PyF f |})) = 0)
  /\ (forall c fragment values,
        ConditionOperator.eval c = Return (fragment, values) ->
        values = map mark (leaf_values_cond c)
        /\ length values = length (leaf_values_cond c))
  /\ mark (PyF f) = NOT_A_VALUE
  /\ Operand.eval Examples.total_operand = ("total = total + 1", NOT_A_VALUE).
Proof.
  split; [reflexivity|]. split; [|split; [|split; reflexivity]].
  - intros Hn Ho Hf. cbn [Operand.eval value name operator fst].
    unfold FieldObject.eval. apply percent_free_count.
    rewrite !percent_free_app, Hn, Ho, Hf. reflexivity.
  - intros c fragment values H.
    pose proof (proj2 entries_values c _ H) as Hv. cbn [snd] in Hv.
    split; [exact Hv|]. now rewrite Hv, length_map.
Qed.

Lemma C3_field_reference_operand_witness :
  percent_free "total" = true
  /\ ConditionOperator.eval Examples.total_tree
     = Return ("( total = total + 1 )", [NOT_A_VALUE])
  /\ count_placeholders
       (fst (Operand.eval {| name := "total"; operator := Some "=";
                             value := PyF Examples.total_plus_1 |})) = 0
  /\ [NOT_A_VALUE] = map mark (leaf_values_cond Examples.total_tree).
Proof.
  split; [reflexivity|]. split; [reflexivity|].
  pose proof (C3_field_reference_operand "total" (Some "=") Examples.total_plus_1) as H.
  split.
  - exact (proj1 (proj2 H) eq_refl eq_refl eq_refl).
  - exact (proj1 (proj1 (proj2 (proj2 H)) Examples.total_tree
                    "( total = total + 1 )" [NOT_A_VALUE] eq_refl)).
Defined.

(** C3, as stated, fails: the And over [total = F('total') + 1] returns a
    value sequence of one entry, the marker, not of zero entries. *)
Lemma C3_marker_is_an_entry :
  ConditionOperator.eval Examples.total_tree
  = Return ("( total = total + 1 )", [NOT_A_VALUE])
  /\ (forall fragment values,
        ConditionOperator.eval Examples.total_tree = Return (fragment, values) ->
        length values <> 0).
Proof.
  split; [reflexivity|].
  intros fragment values H. injection H as <- <-. discriminate.
Qed.

(** ** The fragment does not depend on the bound values *)

Lemma parse_item_mapped (key : string) (v v' : pyobj) :
  match ConditionOperator.parse_item key v with
  | Return op =>
      ConditionOperator.parse_item key v'
      = Return {| name := name op; operator := operator op; value := v' |}
  | Raise _ => exists e, ConditionOperator.parse_item key v' = Raise e
  end.
Proof.
  unfold ConditionOperator.parse_item.
  destruct (split ConditionOperator.OP_SEPARATOR key) as [|k0 [|k1 [|k2 [|k3 ks]]]];
    try destruct (ConditionOperator.not_ _);
    try reflexivity; eexists; reflexivity.
Qed.

Lemma item_token_mapped (f : pyobj -> pyobj) (key : string) (v : pyobj) (op : Operand) :
  (forall v, is_field (f v) = false) ->
  ConditionOperator.parse_item key v = Return op ->
  exists op',
    ConditionOperator.parse_item key (snd (map_item f (key, v))) = Return op'
    /\ fst (Operand.eval op') = fst (Operand.eval op).
Proof.
  intros Hf Hop. unfold map_item. cbn [fst snd].
  destruct (is_field v) eqn:Hv.
  - exists op. now split.
  - pose proof (parse_item_mapped key v (f v)) as H. rewrite Hop in H.
    eexists. split; [exact H|].
    rewrite (Operand_eval_bound _ _ _ (Hf v)).
    pose proof (parse_item_value key v op Hop) as Hval.
    destruct op as [n o w]. cbn [value] in Hval. subst w.
    now rewrite (Operand_eval_bound _ _ _ Hv).
Qed.

Lemma dict_tokens_mapped (f : pyobj -> pyobj) (d : dict) :
  (forall v, is_field (f v) = false) ->
  match ConditionOperator.parse_dict_condition d with
  | Return operands =>
      exists operands',
        ConditionOperator.parse_dict_condition (map (map_item f) d) = Return operands'
        /\ map (fun op => fst (Operand.eval op)) operands'
           = map (fun op => fst (Operand.eval op)) operands
  | Raise _ =>
      exists e, ConditionOperator.parse_dict_condition (map (map_item f) d) = Raise e
  end.
Proof.
  intros Hf. induction d as [|[key v] d IH].
  - exists []. now split.
  - cbn [map ConditionOperator.parse_dict_condition].
    change (map_item f (key, v)) with (key, snd (map_item f (key, v))).
    destruct (ConditionOperator.parse_item key v) as [op|e] eqn:Hop.
    + destruct (item_token_mapped f key v op Hf Hop) as [op' [Hop' Htok]].
      rewrite Hop'. cbn [bind].
      destruct (ConditionOperator.parse_dict_condition d) as [operands|e].
      * destruct IH as [operands' [Hd' Htoks]]. rewrite Hd'. cbn [bind].
        exists (op' :: operands'). split; [reflexivity|].
        cbn [map]. now rewrite Htok, Htoks.
      * destruct IH as [e' He']. rewrite He'. now exists e'.
    + pose proof (parse_item_mapped key v (snd (map_item f (key, v)))) as H.
      rewrite Hop in H. destruct H as [e' He']. rewrite He'. now exists e'.
Qed.

Lemma dict_parts_stable (f : pyobj -> pyobj) (d : dict) :
  (forall v, is_field (f v) = false) -> parts_stable f (PyDict d).
Proof.
  intros Hf. unfold parts_stable. cbn [map_values]. rewrite !entries_dict.
  pose proof (dict_tokens_mapped f d Hf) as H.
  destruct (ConditionOperator.parse_dict_condition d) as [operands|e].
  - destruct H as [operands' [-> Htoks]]. cbn [option_map map fst].
    now rewrite !expand_operands_fst, Htoks.
  - destruct H as [e' ->]. reflexivity.
Qed.

Lemma fragment_of_eval (cls : operator_class) (t : pyobj) :
  fragment_of (ConditionOperator.eval (Instance cls (Some t)))
  = option_map (fun parts => wrap cls (flat_map part_tokens parts))
      (option_map (map fst) (entries t)).
Proof.
  pose proof (eval_entries cls t) as H.
  destruct (entries t) as [es|].
  - rewrite H. cbn [fragment_of fst option_map]. do 2 f_equal.
    unfold tokens_of. now rewrite flat_map_concat_map, flat_map_concat_map, map_map.
  - destruct H as [e ->]. reflexivity.
Qed.

Lemma member_parts_stable (f : pyobj -> pyobj) (x : pyobj) :
  on_member (parts_stable f) (fragment_stable f) x ->
  option_map (map fst) (entries_of_member (map_values f x))
  = option_map (map fst) (entries_of_member x).
Proof.
  destruct x; cbn [on_member map_values entries_of_member]; try (intros H; exact H).
  unfold fragment_stable. intros H.
  destruct (ConditionOperator.eval (map_values_cond f c)) as [val'|e'];
    destruct (ConditionOperator.eval c) as [val|e]; cbn in H |- *;
    congruence.
Qed.

Lemma each_parts_stable (f : pyobj -> pyobj) (l : list pyobj) :
  Forall (on_member (parts_stable f) (fragment_stable f)) l ->
  option_map (map fst) (entries_each (map (map_values f) l))
  = option_map (map fst) (entries_each l).
Proof.
  induction 1 as [|x l Hx _ IH]; [reflexivity|].
  cbn [map entries_each]. apply member_parts_stable in Hx.
  destruct (entries_of_member (map_values f x)) as [ex'|];
    destruct (entries_of_member x) as [ex|]; try discriminate Hx;
    destruct (entries_each (map (map_values f) l)) as [el'|];
    destruct (entries_each l) as [el|]; try discriminate IH; try reflexivity.
  cbn [option_map] in *. rewrite !map_app. congruence.
Qed.

Lemma fragment_map_values (f : pyobj -> pyobj) :
  (forall v, is_field (f v) = false) ->
  (forall t, parts_stable f t) /\ (forall c, fragment_stable f c).
Proof.
  intros Hf. apply member_ind.
  - intros l Hl. unfold parts_stable. cbn [map_values].
    rewrite (proj1 (entries_seq l)), (proj1 (entries_seq _)).
    now apply each_parts_stable.
  - intros l Hl. unfold parts_stable. cbn [map_values].
    rewrite (proj2 (entries_seq l)), (proj2 (entries_seq _)).
    now apply each_parts_stable.
  - intros o Hs. destruct o; try discriminate; try reflexivity.
    now apply dict_parts_stable.
  - intros cls t Ht. unfold fragment_stable. cbn [map_values_cond].
    rewrite !fragment_of_eval. now rewrite Ht.
  - intros cls. reflexivity.
Qed.

(** C10. Two And or Or trees that differ at most in dict values that are
    not field references either both fail or both evaluate, and to the
    same fragment; the two value sequences are the dict values of the two
    trees, left to right, with the marker for each field reference. *)
Theorem C10_fragment_ignores_bound_values (c1 c2 : ConditionOperator) :
  skeleton c1 = skeleton c2 ->
  fragment_of (ConditionOperator.eval c1) = fragment_of (ConditionOperator.eval c2)
  /\ (forall fragment values,
        ConditionOperator.eval c1 = Return (fragment, values) ->
        ConditionOperator.eval c2
        = Return (fragment, map mark (leaf_values_cond c2))
        /\ values = map mark (leaf_values_cond c1)).
Proof.
  intros Hsk.
  assert (Hfrag : fragment_of (ConditionOperator.eval c1)
                  = fragment_of (ConditionOperator.eval c2)).
  { destruct (fragment_map_values (fun _ => PyNone)) as [_ H]; [reflexivity|].
    rewrite <- (H c1), <- (H c2). unfold skeleton in Hsk. now rewrite Hsk. }
  split; [exact Hfrag|].
  intros fragment values H1. rewrite H1 in Hfrag. cbn [fragment_of fst] in Hfrag.
  split.
  - destruct (ConditionOperator.eval c2) as [[fragment2 values2]|e] eqn:H2;
      [|discriminate Hfrag].
    injection Hfrag as <-.
    pose proof (proj2 entries_values c2 _ H2) as Hv. cbn [snd] in Hv. now rewrite Hv.
  - exact (proj2 entries_values c1 _ H1).
Qed.

Lemma C10_fragment_ignores_bound_values_witness :
  skeleton (Examples.login_tree (PyStr "alice") (PyStr "secret"))
  = skeleton (Examples.login_tree (PyStr "' OR 1=1 --") PyNone)
  /\ fragment_of (ConditionOperator.eval (Examples.login_tree (PyStr "alice") (PyStr "secret")))
     = Some "( user = %s AND ( password = %s OR attempts < %s ) )"
  /\ fragment_of (ConditionOperator.eval (Examples.login_tree (PyStr "alice") (PyStr "secret")))
     = fragment_of (ConditionOperator.eval (Examples.login_tree (PyStr "' OR 1=1 --") PyNone)).
Proof.
  split; [reflexivity|]. split; [reflexivity|].
  exact (proj1 (C10_fragment_ignores_bound_values
                  (Examples.login_tree (PyStr "alice") (PyStr "secret"))
                  (Examples.login_tree (PyStr "' OR 1=1 --") PyNone) eq_refl)).
Defined.

(** ** Placeholders and the driver's substitution *)

Lemma string_ind2 (P : string -> Prop) :
  P "" ->
  (forall c, P (String c "")) ->
  (forall c c' s, P s -> P (String c' s) -> P (String c (String c' s))) ->
  forall s, P s.
Proof.
  intros H0 H1 H2 s.
  assert (H : P s /\ forall c, P (String c s)).
  { induction s as [|c' s [IHs IHc]].
    - split; [exact H0 | exact H1].
    - split; [apply IHc|]. intros c. apply H2; [exact IHs | apply IHc]. }
  apply H.
Qed.

Lemma ends_with_cons (c x y : ascii) (s : string) :
  ends_with c (String x (String y s)) = ends_with c (String y s).
Proof.
  reflexivity.
Qed.

Lemma ends_with_app (c : ascii) (a b : string) :
  ends_with c a = false -> ends_with c b = false -> ends_with c (a ++ b) = false.
Proof.
  induction a as [|x a IH]; intros Ha Hb; [exact Hb|].
  cbn [append]. destruct a as [|y a].
  - cbn [append]. destruct b as [|z b]; [exact Ha | exact Hb].
  - rewrite ends_with_cons in Ha. cbn [append] in *. rewrite ends_with_cons.
    now apply IH.
Qed.

Lemma percent_free_ends_with (s : string) :
  percent_free s = true -> ends_with "%" s = false.
Proof.
  induction s as [|x s IH]; [reflexivity|].
  cbn [percent_free]. intros H. apply andb_prop in H. destruct H as [Hx Hs].
  destruct s as [|y s].
  - cbn [ends_with]. now apply negb_true_iff in Hx.
  - rewrite ends_with_cons. now apply IH.
Qed.

Section Substitution.

Variable quote : pyobj -> string.

Lemma fill_cons_other (c : ascii) (s : string) (values : list pyobj) :
  Ascii.eqb c "%" = false ->
  fill quote (String c s) values
  = option_map (fun r => (String c (fst r), snd r)) (fill quote s values).
Proof.
  intros Hc. cbn [fill]. rewrite Hc. now destruct s.
Qed.

Lemma fill_placeholder (s : string) (v : pyobj) (values : list pyobj) :
  fill quote (String "%" (String "s" s)) (v :: values)
  = option_map (fun r => (quote v ++ fst r, snd r)%string) (fill quote s values).
Proof.
  reflexivity.
Qed.

Lemma fill_cons_cons (c c' : ascii) (s : string) (values : list pyobj) :
  Ascii.eqb c "%" && Ascii.eqb c' "s" = false ->
  fill quote (String c (String c' s)) values
  = option_map (fun r => (String c (fst r), snd r))
      (fill quote (String c' s) values).
Proof.
  intros Hc. cbn [fill]. now rewrite Hc.
Qed.

Lemma fill_app (a b : string) (values : list pyobj) :
  ends_with "%" a = false ->
  fill quote (a ++ b) values
  = match fill quote a values with
    | Some (a', values') =>
        option_map (fun r => (a' ++ fst r, snd r)%string) (fill quote b values')
    | None => None
    end.
Proof.
  revert values. induction a as [|c|c c' a IHa IHc] using string_ind2;
    intros values Hend.
  - cbn [append fill]. now destruct (fill quote b values) as [[b' rest]|].
  - cbn [ends_with] in Hend. cbn [append].
    rewrite !(fill_cons_other c _ _ Hend). cbn [fill option_map fst snd].
    now destruct (fill quote b values) as [[b' rest]|].
  - rewrite ends_with_cons in Hend. cbn [append].
    destruct (Ascii.eqb c "%" && Ascii.eqb c' "s") eqn:Hp.
    + apply andb_prop in Hp. destruct Hp as [Hc Hc'].
      apply Ascii.eqb_eq in Hc, Hc'. subst c c'.
      destruct values as [|v values]; [reflexivity|].
      rewrite !fill_placeholder.
      assert (Ha : ends_with "%" a = false).
      { destruct a as [|x a]; [reflexivity | exact Hend]. }
      rewrite (IHa values Ha).
      destruct (fill quote a values) as [[a' values']|]; [|reflexivity].
      cbn [option_map fst snd].
      destruct (fill quote b values') as [[b' rest]|]; [|reflexivity].
      cbn [option_map fst snd]. now rewrite append_assoc.
    + rewrite !(fill_cons_cons c c' _ _ Hp).
      change (String c' (a ++ b)) with (String c' a ++ b)%string.
      rewrite (IHc values Hend).
      destruct (fill quote (String c' a) values) as [[a' values']|]; [|reflexivity].
      cbn [option_map fst snd].
      now destruct (fill quote b values') as [[b' rest]|].
Qed.

Lemma fill_count (s : string) :
  forall values s' rest,
    fill quote s values = Some (s', rest) ->
    length values = count_placeholders s + length rest.
Proof.
  induction s as [|c|c c' s IHs IHc] using string_ind2; intros values s' rest H.
  - injection H as _ <-. reflexivity.
  - cbn in H. injection H as _ <-.
    cbn [count_placeholders]. rewrite prefix_cons. cbn [String.prefix].
    now rewrite andb_false_r.
  - cbn [count_placeholders]. rewrite (prefix_cons "%" c).
    rewrite (prefix_cons "s" c'), prefix_nil, andb_true_r.
    rewrite (Ascii.eqb_sym "%" c), (Ascii.eqb_sym "s" c').
    destruct (Ascii.eqb c "%" && Ascii.eqb c' "s") eqn:Hp.
    + apply andb_prop in Hp. destruct Hp as [Hc Hc'].
      apply Ascii.eqb_eq in Hc, Hc'. subst c c'.
      destruct values as [|v values]; [discriminate H|].
      rewrite fill_placeholder in H.
      destruct (fill quote s values) as [[r rest']|] eqn:Hs; [|discriminate H].
      injection H as _ <-. cbn [length].
      rewrite (IHs values r rest' Hs).
      assert (Hnone : (if String.prefix "%s" (String "s" s) then 1 else 0) = 0).
      { now rewrite prefix_cons. }
      rewrite Hnone. reflexivity.
    + rewrite (fill_cons_cons c c' _ _ Hp) in H.
      destruct (fill quote (String c' s) values) as [[r rest']|] eqn:Hs; [|discriminate H].
      injection H as _ <-.
      rewrite (IHc values r rest' Hs). cbn [count_placeholders]. reflexivity.
Qed.

Lemma fills_free (s : string) : percent_free s = true -> fills quote s [] s.
Proof.
  intros Hs. split; [|now apply percent_free_ends_with].
  intros rest. cbn [app]. induction s as [|c s IH]; [reflexivity|].
  cbn [percent_free] in Hs. apply andb_prop in Hs. destruct Hs as [Hc Hs].
  apply negb_true_iff in Hc. rewrite (fill_cons_other c s rest Hc), (IH Hs).
  reflexivity.
Qed.

Lemma fills_placeholder (v : pyobj) : fills quote "%s" [v] (quote v).
Proof.
  split; [|reflexivity]. intros rest. cbn [app].
  rewrite fill_placeholder. cbn [fill option_map fst snd].
  now rewrite append_nil_r.
Qed.

Lemma fills_app (a b a' b' : string) (va vb : list pyobj) :
  fills quote a va a' -> fills quote b vb b' ->
  fills quote (a ++ b) (va ++ vb) (a' ++ b').
Proof.
  intros [Ha Hea] [Hb Heb]. split; [|now apply ends_with_app].
  intros rest. rewrite (fill_app a b _ Hea), <- app_assoc, Ha, Hb. reflexivity.
Qed.

Lemma fills_free_l (a b b' : string) (vb : list pyobj) :
  percent_free a = true -> fills quote b vb b' ->
  fills quote (a ++ b) vb (a ++ b').
Proof.
  intros Ha Hb. exact (fills_app a b a b' [] vb (fills_free a Ha) Hb).
Qed.

Lemma fills_free_r (a a' b : string) (va : list pyobj) :
  fills quote a va a' -> percent_free b = true ->
  fills quote (a ++ b) va (a' ++ b).
Proof.
  intros Ha Hb. rewrite <- (app_nil_r va).
  exact (fills_app a b a' b va [] Ha (fills_free b Hb)).
Qed.

Lemma tokens_fill_app (toks1 toks2 toks1' toks2' : list string) (vs1 vs2 : list pyobj) :
  tokens_fill quote toks1 vs1 toks1' ->
  tokens_fill quote toks2 vs2 toks2' ->
  tokens_fill quote (toks1 ++ toks2) (vs1 ++ vs2) (toks1' ++ toks2').
Proof.
  induction 1 as [|tok vs tok' toks vss toks' Htok _ IH]; intros H2; [exact H2|].
  cbn [app]. rewrite <- app_assoc. constructor; [exact Htok | now apply IH].
Qed.

Lemma tokens_fill_one (tok tok' : string) (vs : list pyobj) :
  fills quote tok vs tok' -> tokens_fill quote [tok] vs [tok'].
Proof.
  intros H. rewrite <- (app_nil_r vs). constructor; [exact H | constructor].
Qed.

Lemma join_fills (sep : string) (toks toks' : list string) (vs : list pyobj) :
  percent_free sep = true ->
  tokens_fill quote toks vs toks' ->
  fills quote (join sep toks) vs (join sep toks').
Proof.
  intros Hsep. unfold join.
  induction 1 as [|tok vs tok' toks vss toks' Htok Htoks IH].
  - now apply fills_free.
  - destruct Htoks as [|tok2 vs2 tok2' toks2 vss2 toks2' Htok2 Htoks2].
    + cbn [String.concat]. now rewrite app_nil_r.
    + change (String.concat sep (tok :: tok2 :: toks2))
        with (tok ++ sep ++ String.concat sep (tok2 :: toks2))%string.
      change (String.concat sep (tok' :: tok2' :: toks2'))
        with (tok' ++ sep ++ String.concat sep (tok2' :: toks2'))%string.
      apply fills_app; [exact Htok|]. now apply fills_free_l.
Qed.

Lemma wrap_fills (cls : operator_class) (toks toks' : list string) (vs : list pyobj) :
  tokens_fill quote toks vs toks' ->
  fills quote (wrap cls toks) vs (wrap cls toks').
Proof.
  intros H. unfold wrap.
  change (join " " ["("; join (ConditionOperator.connective cls) toks; ")"])
    with ("(" ++ " " ++ join (ConditionOperator.connective cls) toks ++ " " ++ ")")%string.
  change (join " " ["("; join (ConditionOperator.connective cls) toks'; ")"])
    with ("(" ++ " " ++ join (ConditionOperator.connective cls) toks' ++ " " ++ ")")%string.
  apply fills_free_l; [reflexivity|]. apply fills_free_l; [reflexivity|].
  apply fills_free_r; [|reflexivity].
  apply join_fills; [now destruct cls | exact H].
Qed.

End Substitution.

(** ** Tokens of a dict without percent signs *)

Lemma split_from_percent_free (sep s : string) (skip : nat) :
  percent_free s = true ->
  Forall (fun part => percent_free part = true) (split_from sep s skip).
Proof.
  revert skip. induction s as [|c s IH]; intros skip Hs.
  - repeat constructor.
  - cbn [percent_free] in Hs. apply andb_prop in Hs. destruct Hs as [Hc Hs].
    cbn [split_from]. destruct skip as [|k]; [|now apply IH].
    destruct (String.prefix sep (String c s)).
    + constructor; [reflexivity | now apply IH].
    + specialize (IH 0 Hs). destruct (split_from sep s 0) as [|part parts].
      * repeat constructor. cbn [percent_free]. now rewrite Hc.
      * inversion IH as [|? ? Hpart Hparts]; subst.
        constructor; [|exact Hparts]. cbn [percent_free]. now rewrite Hc, Hpart.
Qed.

Lemma get_percent_free (key : string) :
  percent_free (format (ConditionOperator.get ConditionOperator.OPERATORS key)) = true.
Proof.
  unfold ConditionOperator.OPERATORS. cbn [ConditionOperator.get].
  repeat match goal with
         | |- context [String.eqb ?a key] => destruct (String.eqb a key)
         end; reflexivity.
Qed.

Lemma parse_item_clean (key : string) (v : pyobj) (op : Operand) :
  percent_free key = true ->
  ConditionOperator.parse_item key v = Return op ->
  percent_free (name op) = true /\ percent_free (format (operator op)) = true.
Proof.
  intros Hkey. unfold ConditionOperator.parse_item.
  pose proof (split_from_percent_free ConditionOperator.OP_SEPARATOR key 0 Hkey) as Hparts.
  fold (split ConditionOperator.OP_SEPARATOR key) in Hparts.
  destruct (split ConditionOperator.OP_SEPARATOR key) as [|k0 [|k1 [|k2 [|k3 ks]]]];
    try discriminate.
  - intros H. injection H as <-. inversion Hparts; subst.
    split; [assumption | first [apply get_percent_free | reflexivity]].
  - inversion Hparts as [|? ? H0 Hparts1]; subst.
    inversion Hparts1 as [|? ? H1 _]; subst.
    destruct (ConditionOperator.not_ _); intros H; injection H as <-;
      cbn [name operator]; (split; [|first [apply get_percent_free | reflexivity]]).
    + rewrite percent_free_app, H0. cbn. exact H1.
    + assumption.
  - inversion Hparts as [|? ? H0 Hparts1]; subst.
    inversion Hparts1 as [|? ? H1 _]; subst.
    intros H. injection H as <-. cbn [name operator].
    split; [|first [apply get_percent_free | reflexivity]].
    rewrite percent_free_app, H0. cbn. exact H1.
Qed.

Section Alignment.

Variable quote : pyobj -> string.

Lemma item_fills (key : string) (v : pyobj) (op : Operand) :
  clean_item (key, v) = true ->
  ConditionOperator.parse_item key v = Return op ->
  exists op',
    ConditionOperator.parse_item key (snd (map_item (in_place quote) (key, v))) = Return op'
    /\ fills quote (fst (Operand.eval op)) (bound [v]) (fst (Operand.eval op')).
Proof.
  unfold clean_item. cbn [fst snd]. intros Hclean Hop.
  apply andb_prop in Hclean. destruct Hclean as [Hkey Hv].
  destruct (parse_item_clean key v op Hkey Hop) as [Hn Ho].
  pose proof (parse_item_value key v op Hop) as Hval.
  destruct op as [n o w]. cbn [value name operator] in *. subst w.
  unfold map_item, bound. cbn [fst snd filter].
  destruct (is_field v) eqn:Hf; cbn [negb].
  - exists {| name := n; operator := o; value := v |}. split; [exact Hop|].
    destruct v; try discriminate Hf. rewrite Operand_eval_field. cbn [fst].
    apply fills_free. unfold FieldObject.eval in Hv.
    now rewrite !percent_free_app, Hn, Ho, Hv.
  - pose proof (parse_item_mapped key v ((in_place quote) v)) as H. rewrite Hop in H.
    cbn [name operator] in H.
    eexists. split; [exact H|].
    rewrite (Operand_eval_bound n o v Hf). unfold in_place.
    rewrite Operand_eval_field. cbn [fst FieldObject._value].
    replace (n ++ " " ++ format o ++ " %s")%string
      with ((n ++ " " ++ format o ++ " ") ++ "%s")%string
      by (rewrite !append_assoc; reflexivity).
    replace (n ++ " " ++ format o ++ " " ++ quote v)%string
      with ((n ++ " " ++ format o ++ " ") ++ quote v)%string
      by (rewrite !append_assoc; reflexivity).
    change [v] with ([] ++ [v])%list.
    apply fills_app; [|apply fills_placeholder].
    apply fills_free. now rewrite !percent_free_app, Hn, Ho.
Qed.

Lemma dict_fills (d : dict) (operands : list Operand) :
  forallb clean_item d = true ->
  ConditionOperator.parse_dict_condition d = Return operands ->
  exists operands',
    ConditionOperator.parse_dict_condition (map (map_item (in_place quote)) d) = Return operands'
    /\ tokens_fill quote
         (map (fun op => fst (Operand.eval op)) operands)
         (bound (map snd d))
         (map (fun op => fst (Operand.eval op)) operands').
Proof.
  revert operands. induction d as [|[key v] d IH]; intros operands Hclean Hd.
  - injection Hd as <-. exists []. split; [reflexivity | constructor].
  - cbn [forallb] in Hclean. apply andb_prop in Hclean. destruct Hclean as [Hitem Hclean].
    apply parse_dict_condition_cons in Hd. destruct Hd as [op [rest [Hop [Hrest ->]]]].
    destruct (item_fills key v op Hitem Hop) as [op' [Hop' Hfill]].
    destruct (IH rest Hclean Hrest) as [rest' [Hrest' Hfills]].
    exists (op' :: rest'). split.
    + cbn [map].
      change (map_item (in_place quote) (key, v))
        with (key, snd (map_item (in_place quote) (key, v))).
      cbn [ConditionOperator.parse_dict_condition].
      now rewrite Hop', Hrest'.
    + cbn [map snd].
      change (v :: map snd d) with ([v] ++ map snd d)%list.
      unfold bound in *. rewrite filter_app. now constructor.
Qed.

Lemma member_aligned (x : pyobj) (ex : list entry) :
  on_member (aligned quote) (aligned_cond quote) x ->
  clean x = true ->
  entries_of_member x = Some ex ->
  exists ex',
    entries_of_member (map_values (in_place quote) x) = Some ex'
    /\ tokens_fill quote (flat_map tokens_of ex) (bound (leaf_values x))
         (flat_map tokens_of ex').
Proof.
  destruct x; cbn [on_member map_values entries_of_member];
    try (intros H Hclean Hex; exact (H Hclean ex Hex)).
  intros H Hclean Hex. cbn [clean] in Hclean.
  destruct (ConditionOperator.eval c) as [val|e] eqn:Hc; [|discriminate Hex].
  injection Hex as <-.
  destruct (H Hclean val Hc) as [val' [Hc' Hfill]].
  unfold literal in Hc'. rewrite Hc'.
  eexists. split; [reflexivity|].
  cbn [flat_map tokens_of part_tokens fst app leaf_values].
  now apply tokens_fill_one.
Qed.

Lemma each_aligned (l : list pyobj) :
  Forall (on_member (aligned quote) (aligned_cond quote)) l ->
  forallb clean l = true ->
  forall es, entries_each l = Some es ->
    exists es',
      entries_each (map (map_values (in_place quote)) l) = Some es'
      /\ tokens_fill quote (flat_map tokens_of es) (bound (flat_map leaf_values l))
           (flat_map tokens_of es').
Proof.
  induction 1 as [|x l Hx _ IH]; intros Hclean es Hes.
  - injection Hes as <-. exists []. split; [reflexivity | constructor].
  - cbn [forallb] in Hclean. apply andb_prop in Hclean. destruct Hclean as [Hcx Hcl].
    apply entries_each_cons in Hes. destruct Hes as [ex [el [Hex [Hel ->]]]].
    destruct (member_aligned x ex Hx Hcx Hex) as [ex' [Hex' Hfx]].
    destruct (IH Hcl el Hel) as [el' [Hel' Hfl]].
    exists (ex' ++ el')%list. split.
    + cbn [map entries_each]. now rewrite Hex', Hel'.
    + cbn [flat_map]. unfold bound in *.
      rewrite !flat_map_app, filter_app. now apply tokens_fill_app.
Qed.

Lemma alignment :
  (forall t, aligned quote t) /\ (forall c, aligned_cond quote c).
Proof.
  apply member_ind.
  - intros l Hl Hclean es. cbn [map_values clean] in *.
    rewrite (proj1 (entries_seq l)), (proj1 (entries_seq _)).
    now apply each_aligned.
  - intros l Hl Hclean es. cbn [map_values clean] in *.
    rewrite (proj2 (entries_seq l)), (proj2 (entries_seq _)).
    now apply each_aligned.
  - intros o Hs Hclean es.
    destruct o; try discriminate; try (now rewrite entries_other).
    cbn [map_values clean leaf_values] in *. rewrite !entries_dict.
    destruct (ConditionOperator.parse_dict_condition d) as [operands|e] eqn:Hd;
      [|discriminate].
    intros H. injection H as <-.
    destruct (dict_fills d operands Hclean Hd) as [operands' [Hd' Hfill]].
    rewrite Hd'. eexists. split; [reflexivity|].
    cbn [flat_map tokens_of part_tokens fst]. rewrite !app_nil_r.
    now rewrite !expand_operands_fst.
  - intros cls t Ht Hclean v Hv. cbn [clean_cond] in Hclean.
    apply eval_Return in Hv. destruct Hv as [es [Hes ->]].
    destruct (Ht Hclean es Hes) as [es' [Hes' Hfill]].
    unfold literal. cbn [map_values_cond].
    pose proof (eval_entries cls (map_values (in_place quote) t)) as H.
    rewrite Hes' in H. rewrite H.
    eexists. split; [reflexivity|]. cbn [fst leaf_values_cond].
    now apply wrap_fills.
  - intros cls Hclean v Hv. discriminate Hv.
Qed.

End Alignment.

(** ** Placeholders and values of an And or Or *)

Lemma filter_partition_length (p : pyobj -> bool) (l : list pyobj) :
  length l = length (filter (fun v => negb (p v)) l) + length (filter p l).
Proof.
  induction l as [|v l IH]; [reflexivity|].
  cbn [filter]. destruct (p v); cbn [negb length]; lia.
Qed.

Lemma bound_all (l : list pyobj) :
  forallb (fun v => negb (is_field v)) l = true ->
  bound l = l /\ map mark l = l.
Proof.
  unfold bound, mark. induction l as [|v l IH]; [now split|].
  cbn [forallb filter map]. intros H. apply andb_prop in H. destruct H as [Hv Hl].
  destruct (IH Hl) as [Hb Hm]. rewrite Hv, Hb, Hm.
  apply negb_true_iff in Hv. now rewrite Hv.
Qed.

(** C1. For an And or Or that evaluates, with no percent sign in a
    shorthand key or in the text of a field reference: the value sequence
    is the sequence of the dict values of the tree, left to right, with
    the marker in the place of each field reference; the fragment has one
    placeholder for each dict value that is not a field reference, so the
    length of the value sequence is the number of placeholders plus the
    number of field references, and equals the number of placeholders
    when there is none; and filling the placeholders, left to right, with
    the dict values that are not field references gives the fragment of
    the tree in which these values are written in place. *)
Theorem C1_placeholders_and_values
        (c : ConditionOperator) (fragment : string) (values : list pyobj) :
  ConditionOperator.eval c = Return (fragment, values) ->
  clean_cond c = true ->
  values = map mark (leaf_values_cond c)
  /\ count_placeholders fragment = length (bound (leaf_values_cond c))
  /\ length values
     = count_placeholders fragment + length (filter is_field (leaf_values_cond c))
  /\ (forallb (fun v => negb (is_field v)) (leaf_values_cond c) = true ->
      values = leaf_values_cond c /\ count_placeholders fragment = length values)
  /\ (forall quote : pyobj -> string,
        exists text,
          fragment_of (ConditionOperator.eval (literal quote c)) = Some text
          /\ fill quote fragment (bound (leaf_values_cond c)) = Some (text, [])).
Proof.
  intros Heval Hclean.
  pose proof (proj2 entries_values c _ Heval) as Hvalues. cbn [snd] in Hvalues.
  assert (Hfill : forall quote : pyobj -> string,
            exists text,
              fragment_of (ConditionOperator.eval (literal quote c)) = Some text
              /\ fill quote fragment (bound (leaf_values_cond c)) = Some (text, [])).
  { intros quote.
    destruct (proj2 (alignment quote) c Hclean _ Heval) as [[text values'] [Hlit [Hfills _]]].
    exists text. split; [now rewrite Hlit|].
    cbn [fst] in Hfills. specialize (Hfills []). now rewrite app_nil_r in Hfills. }
  assert (Hcount : count_placeholders fragment = length (bound (leaf_values_cond c))).
  { destruct (Hfill (fun _ => "")) as [text [_ H]].
    apply fill_count in H. cbn [length] in H. lia. }
  split; [exact Hvalues|]. split; [exact Hcount|]. split; [|split; [|exact Hfill]].
  - rewrite Hvalues, length_map, Hcount. apply filter_partition_length.
  - intros Hall. destruct (bound_all _ Hall) as [Hb Hm].
    rewrite Hcount, Hb, Hvalues, Hm. now split.
Qed.

Lemma C1_placeholders_and_values_witness :
  ConditionOperator.eval Examples.balance_tree
  = Return ("( n > %s OR balance = credit - 10 )", [PyInt 0; NOT_A_VALUE])
  /\ clean_cond Examples.balance_tree = true
  /\ count_placeholders "( n > %s OR balance = credit - 10 )" = 1
  /\ fill (fun _ => "0") "( n > %s OR balance = credit - 10 )" [PyInt 0]
     = Some ("( n > 0 OR balance = credit - 10 )", []).
Proof.
  split; [reflexivity|]. split; [reflexivity|].
  pose proof (C1_placeholders_and_values Examples.balance_tree
                "( n > %s OR balance = credit - 10 )" [PyInt 0; NOT_A_VALUE]
                eq_refl eq_refl) as H.
  split.
  - exact (proj1 (proj2 H)).
  - reflexivity.
Defined.

(** C1, as stated, fails: with a field reference as a dict value the
    fragment has one placeholder and the value sequence two entries, and
    with the key [%s] the fragment has two placeholders and the value
    sequence one entry. *)
Lemma C1_count_differs :
  ConditionOperator.eval Examples.balance_tree
  = Return ("( n > %s OR balance = credit - 10 )", [PyInt 0; NOT_A_VALUE])
  /\ count_placeholders "( n > %s OR balance = credit - 10 )"
     <> length [PyInt 0; NOT_A_VALUE]
  /\ ConditionOperator.eval Examples.percent_key_tree
     = Return ("( %s = %s )", [PyInt 1])
  /\ count_placeholders "( %s = %s )" <> length [PyInt 1].
Proof.
  repeat split; try reflexivity; discriminate.
Qed.

(** ** The nested example *)

(** C2. [And({'a': va}, Or({'b': vb}, {'c': vc}))], for values that are
    not field references, evaluates to the fragment
    [( a = %s AND ( b = %s OR c = %s ) )] with the values [(va, vb, vc)]
    in that order; with 1, 2 and 3 these are the values [(1, 2, 3)]. *)
Theorem C2_nested_dicts (va vb vc : pyobj) :
  is_field va = false -> is_field vb = false -> is_field vc = false ->
  ConditionOperator.eval (Examples.nested_with va vb vc)
  = Return ("( a = %s AND ( b = %s OR c = %s ) )", [va; vb; vc]).
Proof.
  intros Ha Hb Hc.
  assert (Hsk : skeleton (Examples.nested_with va vb vc) = skeleton Examples.nested_dicts).
  { unfold skeleton, Examples.nested_with, Examples.nested_dicts,
      ConditionOperator.__init__.
    cbn [map_values_cond map_values map]. unfold map_item. cbn [fst snd].
    now rewrite Ha, Hb, Hc. }
  destruct (fragment_map_values (fun _ => PyNone)) as [_ Hstable]; [reflexivity|].
  pose proof (Hstable (Examples.nested_with va vb vc)) as H1.
  pose proof (Hstable Examples.nested_dicts) as H2.
  unfold fragment_stable in H1, H2. fold (skeleton (Examples.nested_with va vb vc)) in H1.
  fold (skeleton Examples.nested_dicts) in H2. rewrite Hsk, H2 in H1.
  destruct (ConditionOperator.eval (Examples.nested_with va vb vc))
    as [[fragment values]|e] eqn:Heval; [|discriminate H1].
  injection H1 as <-.
  pose proof (proj2 entries_values _ _ Heval) as Hvalues.
  cbn in Hvalues. unfold mark in Hvalues. rewrite Ha, Hb, Hc in Hvalues.
  now subst values.
Qed.

Lemma C2_nested_dicts_witness :
  is_field (PyInt 1) = false
  /\ Examples.nested_with (PyInt 1) (PyInt 2) (PyInt 3) = Examples.nested_dicts
  /\ ConditionOperator.eval Examples.nested_dicts
     = Return ("( a = %s AND ( b = %s OR c = %s ) )", [PyInt 1; PyInt 2; PyInt 3]).
Proof.
  split; [reflexivity|]. split; [reflexivity|].
  exact (C2_nested_dicts (PyInt 1) (PyInt 2) (PyInt 3) eq_refl eq_refl eq_refl).
Defined.

(** * Further properties of the module *)

(** ** Splitting a key *)

Lemma concat_cons (sep x : string) (l : list string) :
  l <> [] -> String.concat sep (x :: l) = (x ++ sep ++ String.concat sep l)%string.
Proof.
  destruct l; [contradiction | reflexivity].
Qed.

Lemma concat_cons_char (sep : string) (c : ascii) (part : string) (parts : list string) :
  String.concat sep (String c part :: parts)
  = String c (String.concat sep (part :: parts)).
Proof.
  now destruct parts.
Qed.

Lemma prefix_drop (sep s : string) :
  String.prefix sep s = true -> s = (sep ++ drop (String.length sep) s)%string.
Proof.
  revert s. induction sep as [|a sep IH]; intros s H; [reflexivity|].
  destruct s as [|b s]; [discriminate H|].
  rewrite prefix_cons in H. apply andb_prop in H. destruct H as [Hab Hs].
  apply Ascii.eqb_eq in Hab. subst b.
  cbn [String.length drop append]. f_equal. now apply IH.
Qed.

Lemma split_from_join (sep s : string) (skip : nat) :
  sep <> "" ->
  join sep (split_from sep s skip) = drop skip s.
Proof.
  intros Hsep. unfold join. revert skip.
  induction s as [|c s IH]; intros skip.
  - now destruct skip.
  - cbn [split_from]. destruct skip as [|k]; [|exact (IH k)].
    destruct (String.prefix sep (String c s)) eqn:Hp.
    + rewrite concat_cons by apply split_from_nonempty.
      rewrite IH. destruct sep as [|a sep]; [contradiction|].
      rewrite prefix_cons in Hp. apply andb_prop in Hp. destruct Hp as [Hac Hp].
      apply Ascii.eqb_eq in Hac. subst c. apply prefix_drop in Hp.
      cbn [String.length Nat.sub append drop]. rewrite Nat.sub_0_r.
      f_equal. now symmetry.
    + pose proof (split_from_nonempty sep s 0) as Hne.
      specialize (IH 0). destruct (split_from sep s 0) as [|part parts]; [contradiction|].
      rewrite concat_cons_char, IH. reflexivity.
Qed.

(** X1. Joining the parts of a shorthand key with the separator gives the
    key back: the split loses and adds no character, and it never yields
    an empty list of parts. *)
Theorem key_parts_join (key : string) :
  join ConditionOperator.OP_SEPARATOR (split ConditionOperator.OP_SEPARATOR key) = key
  /\ split ConditionOperator.OP_SEPARATOR key <> [].
Proof.
  split.
  - unfold split. now rewrite split_from_join.
  - apply split_from_nonempty.
Qed.

(** ** The list [result] *)

Lemma bind_assoc {A B C : Type} (m : res A) (f : A -> res B) (g : B -> res C) :
  bind (bind m f) g = bind m (fun a => bind (f a) g).
Proof.
  now destruct m.
Qed.

Lemma parse_each_cons (x : pyobj) (l : list pyobj) (result : list entry) :
  parse_each (x :: l) result = (r <- parse_member x result ;; parse_each l r).
Proof.
  destruct x; cbn [parse_each parse_member]; rewrite bind_assoc; reflexivity.
Qed.

Lemma parse_each_app (l1 l2 : list pyobj) (result : list entry) :
  parse_each (l1 ++ l2) result = (r <- parse_each l1 result ;; parse_each l2 r).
Proof.
  revert result. induction l1 as [|x l1 IH]; intros result; [reflexivity|].
  cbn [app]. rewrite !parse_each_cons, bind_assoc.
  destruct (parse_member x result) as [r|e]; [|reflexivity].
  cbn [bind]. apply IH.
Qed.

(** X2. [parse_conditions] only appends to [result]: when the call
    returns, the list is the one given followed by the entries the call
    with an empty list produces, and the tokens and values returned are
    those of the whole list; and the call raises with the given list
    exactly when it raises with the empty one. *)
Theorem parse_conditions_appends (t : pyobj) (result : list entry) :
  (forall result' out,
     ConditionOperator.parse_conditions t result = Return (result', out) ->
     exists es,
       ConditionOperator.parse_conditions t [] = Return (es, ConditionOperator.collect es)
       /\ result' = (result ++ es)%list
       /\ out = ConditionOperator.collect result')
  /\ ((exists e, ConditionOperator.parse_conditions t result = Raise e)
      <-> (exists e, ConditionOperator.parse_conditions t [] = Raise e)).
Proof.
  pose proof (parse_conditions_frame t result) as Hr.
  pose proof (parse_conditions_frame t []) as H0.
  destruct (entries t) as [es|].
  - split.
    + intros result' out H. rewrite Hr in H. injection H as <- <-.
      exists es. now split.
    + split; intros [e He]; [rewrite Hr in He | rewrite H0 in He]; discriminate He.
  - split.
    + intros result' out H. destruct Hr as [e He]. rewrite He in H. discriminate H.
    + split; intros _; assumption.
Qed.

Lemma parse_conditions_appends_witness :
  ConditionOperator.parse_conditions (PyDict [("b__lt", PyInt 2)])
    [(Prepared "( a = %s )", [PyInt 1])]
  = Return ([(Prepared "( a = %s )", [PyInt 1]); (Tokens ["b < %s"], [PyInt 2])],
            (["( a = %s )"; "b < %s"], [PyInt 1; PyInt 2]))
  /\ exists es,
       ConditionOperator.parse_conditions (PyDict [("b__lt", PyInt 2)]) []
       = Return (es, ConditionOperator.collect es)
       /\ [(Prepared "( a = %s )", [PyInt 1]); (Tokens ["b < %s"], [PyInt 2])]
          = ([(Prepared "( a = %s )", [PyInt 1])] ++ es)%list
       /\ (["( a = %s )"; "b < %s"], [PyInt 1; PyInt 2])
          = ConditionOperator.collect
              [(Prepared "( a = %s )", [PyInt 1]); (Tokens ["b < %s"], [PyInt 2])].
Proof.
  split; [reflexivity|].
  exact (proj1 (parse_conditions_appends (PyDict [("b__lt", PyInt 2)])
                  [(Prepared "( a = %s )", [PyInt 1])]) _ _ eq_refl).
Defined.

(** ** Sequences among the members *)

(** X3. A list or tuple among the members of a sequence is spliced in
    place: the loop over the members gives the same list of entries, or
    raises the same exception, as over the sequence with the members of
    the inner one written out; so the And or Or adds no parentheses for
    it. *)
Theorem nested_sequence_spliced
        (cls : operator_class) (l1 l2 l3 : list pyobj) (result : list entry) :
  parse_each (l1 ++ PyList l2 :: l3) result = parse_each (l1 ++ l2 ++ l3) result
  /\ parse_each (l1 ++ PyTuple l2 :: l3) result = parse_each (l1 ++ l2 ++ l3) result
  /\ ConditionOperator.eval (Instance cls (Some (PyTuple (l1 ++ PyList l2 :: l3))))
     = ConditionOperator.eval (Instance cls (Some (PyTuple (l1 ++ l2 ++ l3))))
  /\ ConditionOperator.eval (Instance cls (Some (PyTuple (l1 ++ PyTuple l2 :: l3))))
     = ConditionOperator.eval (Instance cls (Some (PyTuple (l1 ++ l2 ++ l3)))).
Proof.
  assert (Hlist : forall result,
            parse_each (l1 ++ PyList l2 :: l3) result = parse_each (l1 ++ l2 ++ l3) result).
  { intros r. rewrite !parse_each_app.
    destruct (parse_each l1 r) as [r1|e]; [|reflexivity]. cbn [bind].
    rewrite parse_each_cons, parse_each_app. cbn [parse_member].
    rewrite (proj1 (parse_each_loop l2 r1)), !bind_assoc.
    destruct (parse_each l2 r1) as [r2|e]; reflexivity. }
  assert (Htuple : forall result,
            parse_each (l1 ++ PyTuple l2 :: l3) result = parse_each (l1 ++ l2 ++ l3) result).
  { intros r. rewrite !parse_each_app.
    destruct (parse_each l1 r) as [r1|e]; [|reflexivity]. cbn [bind].
    rewrite parse_each_cons, parse_each_app. cbn [parse_member].
    rewrite (proj2 (parse_each_loop l2 r1)), !bind_assoc.
    destruct (parse_each l2 r1) as [r2|e]; reflexivity. }
  split; [apply Hlist|]. split; [apply Htuple|].
  split; cbn [ConditionOperator.eval];
    rewrite !(proj2 (parse_each_loop _ [])); [rewrite Hlist | rewrite Htuple];
    reflexivity.
Qed.

(** ** And and Or over evaluated trees *)

Lemma entries_each_operators
      (cs : list ConditionOperator) (rs : list (string * list pyobj)) :
  Forall2 (fun c r => ConditionOperator.eval c = Return r) cs rs ->
  entries_each (map PyCond cs) = Some (map (fun r => (Prepared (fst r), snd r)) rs).
Proof.
  induction 1 as [|c r cs rs Hc _ IH]; [reflexivity|].
  cbn [map entries_each entries_of_member]. now rewrite Hc, IH.
Qed.

(** X4. An And or Or whose members are And and Or objects that evaluate
    returns their fragments, in order, joined by its connective and put
    in parentheses, and their value sequences one after the other. *)
Theorem eval_of_operators
        (cls : operator_class) (cs : list ConditionOperator)
        (rs : list (string * list pyobj)) :
  Forall2 (fun c r => ConditionOperator.eval c = Return r) cs rs ->
  ConditionOperator.eval (Instance cls (Some (PyTuple (map PyCond cs))))
  = Return (("( " ++ join (ConditionOperator.connective cls) (map fst rs) ++ " )")%string,
            concat (map snd rs)).
Proof.
  intros H. pose proof (eval_entries cls (PyTuple (map PyCond cs))) as He.
  rewrite (proj2 (entries_seq _)), (entries_each_operators cs rs H) in He.
  rewrite He.
  assert (Htokens : flat_map tokens_of (map (fun r => (Prepared (fst r), snd r)) rs)
                    = map fst rs).
  { clear. induction rs as [|r rs IH]; [reflexivity|].
    cbn [map flat_map tokens_of part_tokens fst app]. now rewrite IH. }
  assert (Hvalues : flat_map snd (map (fun r : string * list pyobj =>
                                         (Prepared (fst r), snd r)) rs)
                    = concat (map snd rs)).
  { clear. induction rs as [|r rs IH]; [reflexivity|].
    cbn [map flat_map snd concat]. now rewrite IH. }
  rewrite Htokens, Hvalues. reflexivity.
Qed.

Lemma eval_of_operators_witness :
  Forall2 (fun c r => ConditionOperator.eval c = Return r)
    [QueryObject.condition Examples.Qa; Examples.nested_dicts]
    [("( a = %s )", [PyInt 1]);
     ("( a = %s AND ( b = %s OR c = %s ) )", [PyInt 1; PyInt 2; PyInt 3])]
  /\ ConditionOperator.eval
       (Instance Or (Some (PyTuple [PyCond (QueryObject.condition Examples.Qa);
                                    PyCond Examples.nested_dicts])))
     = Return ("( ( a = %s ) OR ( a = %s AND ( b = %s OR c = %s ) ) )",
               [PyInt 1; PyInt 1; PyInt 2; PyInt 3]).
Proof.
  assert (H : Forall2 (fun c r => ConditionOperator.eval c = Return r)
                [QueryObject.condition Examples.Qa; Examples.nested_dicts]
                [("( a = %s )", [PyInt 1]);
                 ("( a = %s AND ( b = %s OR c = %s ) )", [PyInt 1; PyInt 2; PyInt 3])]).
  { repeat constructor. }
  split; [exact H|].
  exact (eval_of_operators Or _ _ H).
Defined.

(** X5. Every fragment an And or Or returns is the join of its tokens by
    the connective between an opening parenthesis followed by a space and
    a space followed by a closing parenthesis; no evaluation returns a
    fragment without them. *)
Theorem fragment_in_parentheses
        (cls : operator_class) (conditions : option pyobj)
        (fragment : string) (values : list pyobj) :
  ConditionOperator.eval (Instance cls conditions) = Return (fragment, values) ->
  exists tokens,
    fragment = ("( " ++ join (ConditionOperator.connective cls) tokens ++ " )")%string
    /\ String.prefix "( " fragment = true
    /\ ends_with ")" fragment = true
    /\ 4 <= String.length fragment.
Proof.
  intros H. destruct conditions as [t|]; [|discriminate H].
  apply eval_Return in H. destruct H as [es [_ H]]. injection H as -> _.
  exists (flat_map tokens_of es).
  set (body := join (ConditionOperator.connective cls) (flat_map tokens_of es)).
  assert (Hends : forall s, ends_with ")" (s ++ " )") = true).
  { induction s as [|c s IH]; [reflexivity|].
    cbn [append]. destruct (s ++ " )")%string eqn:Hs; [|exact IH].
    destruct s; discriminate Hs. }
  assert (Hlen : forall s, 2 <= String.length (s ++ " )")).
  { induction s as [|c s IH]; cbn [append String.length]; [apply le_n | lia]. }
  split; [reflexivity|]. split; [|split].
  - change (wrap cls (flat_map tokens_of es)) with (String "(" (String " " (body ++ " )"))).
    now rewrite !prefix_cons, prefix_nil.
  - change (wrap cls (flat_map tokens_of es)) with (String "(" (String " " (body ++ " )"))).
    specialize (Hends body).
    destruct (body ++ " )")%string eqn:Hb; [discriminate Hends | exact Hends].
  - change (wrap cls (flat_map tokens_of es)) with (String "(" (String " " (body ++ " )"))).
    cbn [String.length]. specialize (Hlen body). lia.
Qed.

Lemma fragment_in_parentheses_witness :
  ConditionOperator.eval Examples.balance_tree
  = Return ("( n > %s OR balance = credit - 10 )", [PyInt 0; NOT_A_VALUE])
  /\ exists tokens,
       "( n > %s OR balance = credit - 10 )"
       = ("( " ++ join (ConditionOperator.connective Or) tokens ++ " )")%string
       /\ String.prefix "( " "( n > %s OR balance = credit - 10 )" = true
       /\ ends_with ")" "( n > %s OR balance = credit - 10 )" = true
       /\ 4 <= String.length "( n > %s OR balance = credit - 10 )".
Proof.
  split; [reflexivity|].
  exact (fragment_in_parentheses Or _ _ _ (eq_refl : ConditionOperator.eval Examples.balance_tree = _)).
Defined.

(** ** Which conditions are accepted *)

Lemma parse_item_accepts (key : string) (v : pyobj) :
  key_arity_ok key = true <-> exists op, ConditionOperator.parse_item key v = Return op.
Proof.
  unfold key_arity_ok, ConditionOperator.parse_item.
  pose proof (split_from_nonempty ConditionOperator.OP_SEPARATOR key 0) as Hne.
  fold (split ConditionOperator.OP_SEPARATOR key) in Hne.
  destruct (split ConditionOperator.OP_SEPARATOR key) as [|k0 [|k1 [|k2 [|k3 ks]]]];
    [contradiction|..]; cbn [length Nat.leb].
  - split; [eexists; reflexivity | reflexivity].
  - split; [|reflexivity]. intros _.
    destruct (ConditionOperator.not_ _); eexists; reflexivity.
  - split; [eexists; reflexivity | reflexivity].
  - split; [discriminate|]. intros [op H]. discriminate H.
Qed.

Lemma parse_dict_condition_accepts (d : dict) :
  forallb (fun kv => key_arity_ok (fst kv)) d = true
  <-> exists operands, ConditionOperator.parse_dict_condition d = Return operands.
Proof.
  induction d as [|[key v] d IH]; cbn [forallb ConditionOperator.parse_dict_condition fst].
  - split; [eexists; reflexivity | reflexivity].
  - rewrite andb_true_iff, IH, (parse_item_accepts key v). split.
    + intros [[op Hop] [operands Hd]]. rewrite Hop, Hd. eexists. reflexivity.
    + intros [operands H].
      apply bind_Return in H. destruct H as [op [Hop H]].
      apply bind_Return in H. destruct H as [rest [Hrest _]].
      split; eexists; eassumption.
Qed.

Lemma member_accepted (x : pyobj) :
  on_member accepted accepted_cond x ->
  acceptable_member x = true <-> exists es, entries_of_member x = Some es.
Proof.
  destruct x; cbn [on_member acceptable_member entries_of_member];
    try (intros H; exact H).
  unfold accepted_cond. intros H. rewrite H.
  destruct (ConditionOperator.eval c) as [val|e]; split.
  - intros _. eexists. reflexivity.
  - intros _. now exists val.
  - intros [v Hv]. discriminate Hv.
  - intros [es Hes]. discriminate Hes.
Qed.

Lemma each_accepted (l : list pyobj) :
  Forall (on_member accepted accepted_cond) l ->
  forallb acceptable_member l = true <-> exists es, entries_each l = Some es.
Proof.
  induction 1 as [|x l Hx _ IH]; cbn [forallb entries_each].
  - split; [eexists; reflexivity | reflexivity].
  - rewrite andb_true_iff, IH, (member_accepted x Hx). split.
    + intros [[ex Hex] [el Hel]]. rewrite Hex, Hel. eexists. reflexivity.
    + intros [es H]. apply entries_each_cons in H.
      destruct H as [ex [el [Hex [Hel _]]]]. split; eexists; eassumption.
Qed.

Lemma acceptance :
  (forall t, accepted t) /\ (forall c, accepted_cond c).
Proof.
  apply member_ind.
  - intros l Hl. unfold accepted. rewrite (proj1 (entries_seq l)).
    exact (each_accepted l Hl).
  - intros l Hl. unfold accepted. rewrite (proj2 (entries_seq l)).
    exact (each_accepted l Hl).
  - intros o Hs. unfold accepted.
    destruct o; try discriminate Hs;
      try (rewrite entries_other by reflexivity; cbn [acceptable];
           split; [discriminate | intros [es Hes]; discriminate Hes]).
    cbn [acceptable]. rewrite entries_dict, parse_dict_condition_accepts.
    destruct (ConditionOperator.parse_dict_condition d) as [operands|e]; split.
    + intros _. eexists. reflexivity.
    + intros _. now exists operands.
    + intros [operands H]. discriminate H.
    + intros [es H]. discriminate H.
  - intros cls t Ht. unfold accepted_cond, accepted in *. cbn [acceptable_cond].
    rewrite Ht. pose proof (eval_entries cls t) as H.
    destruct (entries t) as [es|]; split.
    + intros _. eexists. exact H.
    + intros _. now exists es.
    + intros [es Hes]. discriminate Hes.
    + intros [v Hv]. destruct H as [e He]. rewrite He in Hv. discriminate Hv.
  - intros cls. unfold accepted_cond. cbn [acceptable_cond]. split.
    + discriminate.
    + intros [v Hv]. discriminate Hv.
Qed.

(** X6. An And or Or evaluates to a fragment and values exactly when its
    conditions are set and are made of lists and tuples, of dicts whose
    keys split into at most three parts, and of And and Or members of
    this kind; every other tree makes the evaluation raise. *)
Theorem eval_succeeds_iff_acceptable (c : ConditionOperator) :
  (acceptable_cond c = true <-> exists v, ConditionOperator.eval c = Return v)
  /\ (acceptable_cond c = false <-> exists e, ConditionOperator.eval c = Raise e).
Proof.
  pose proof (proj2 acceptance c) as H. unfold accepted_cond in H.
  split; [exact H|].
  destruct (ConditionOperator.eval c) as [v|e]; split.
  - intros Hf. assert (Ht : acceptable_cond c = true) by (apply H; now exists v).
    rewrite Ht in Hf. discriminate Hf.
  - intros [e He]. discriminate He.
  - intros _. now exists e.
  - intros _. destruct (acceptable_cond c) eqn:Ha; [|reflexivity].
    destruct (proj1 H eq_refl) as [v Hv]. discriminate Hv.
Qed.

Lemma eval_succeeds_iff_acceptable_witness :
  acceptable_cond Examples.nested_dicts = true
  /\ acceptable_cond Examples.nested_Qs = false
  /\ (exists v, ConditionOperator.eval Examples.nested_dicts = Return v)
  /\ (exists e, ConditionOperator.eval Examples.nested_Qs = Raise e).
Proof.
  split; [reflexivity|]. split; [reflexivity|]. split.
  - exact (proj1 (proj1 (eval_succeeds_iff_acceptable Examples.nested_dicts)) eq_refl).
  - exact (proj1 (proj2 (eval_succeeds_iff_acceptable Examples.nested_Qs)) eq_refl).
Defined.

(** ** How a key is resolved *)

Lemma get_nonempty (key op : string) :
  ConditionOperator.get ConditionOperator.OPERATORS key = Some op -> op <> "".
Proof.
  unfold ConditionOperator.OPERATORS. cbn [ConditionOperator.get].
  repeat match goal with
         | |- context [String.eqb ?a key] => destruct (String.eqb a key)
         end;
    intros H; try discriminate H; injection H as <-; discriminate.
Qed.

Lemma eval_single_item
      (cls : operator_class) (key : string) (v : pyobj) (n : string) (o : option string) :
  ConditionOperator.parse_item key v = Return {| name := n; operator := o; value := v |} ->
  is_field v = false ->
  ConditionOperator.eval (ConditionOperator.__init__ cls [PyDict [(key, v)]] [])
  = Return (("( " ++ n ++ " " ++ format o ++ " %s )")%string, [v]).
Proof.
  intros Hitem Hv.
  assert (Hd : ConditionOperator.parse_dict_condition [(key, v)]
               = Return [{| name := n; operator := o; value := v |}]).
  { cbn [ConditionOperator.parse_dict_condition]. now rewrite Hitem. }
  rewrite (eval_dict cls _ _ Hd). cbn [ConditionOperator._expand_operands].
  rewrite (Operand_eval_bound n o v Hv). cbn [fst snd].
  unfold wrap, join. cbn [String.concat]. rewrite !append_assoc. reflexivity.
Qed.

(** X8. A key of two parts [a__b] is resolved by the operator table
    alone: when [b] is a suffix of the table the condition is on the
    field [a] with the operator of [b], and otherwise it is on the dotted
    name [a.b] with the operator [=].  So a column whose name is a suffix
    of the table cannot be reached by the two-part form. *)
Theorem two_part_key_resolution
        (cls : operator_class) (a b : string) (v : pyobj) :
  plain_name a -> plain_name b -> is_field v = false ->
  (forall sql_op,
     ConditionOperator.get ConditionOperator.OPERATORS b = Some sql_op ->
     ConditionOperator.eval
       (ConditionOperator.__init__ cls [PyDict [((a ++ "__" ++ b)%string, v)]] [])
     = Return (("( " ++ a ++ " " ++ sql_op ++ " %s )")%string, [v]))
  /\ (ConditionOperator.get ConditionOperator.OPERATORS b = None ->
      ConditionOperator.eval
        (ConditionOperator.__init__ cls [PyDict [((a ++ "__" ++ b)%string, v)]] [])
      = Return (("( " ++ a ++ "." ++ b ++ " = %s )")%string, [v])).
Proof.
  intros Ha [Hb _] Hv. split.
  - intros sql_op Hget.
    apply (eval_single_item cls _ v a (Some sql_op)); [|exact Hv].
    apply parse_item_suffix; [exact Ha | exact Hb | exact Hget |].
    exact (get_nonempty b sql_op Hget).
  - intros Hget.
    replace ("( " ++ a ++ "." ++ b ++ " = %s )")%string
      with ("( " ++ (a ++ "." ++ b) ++ " " ++ format (Some "=") ++ " %s )")%string
      by (rewrite !append_assoc; reflexivity).
    apply eval_single_item; [|exact Hv].
    unfold ConditionOperator.parse_item.
    now rewrite (split_plain a b Ha), Hb, Hget.
Qed.

Lemma two_part_key_resolution_witness :
  plain_name "users" /\ plain_name "in" /\ plain_name "login"
  /\ ConditionOperator.eval
       (ConditionOperator.__init__ And [PyDict [("users__in", PyStr "x")]] [])
     = Return ("( users IN %s )", [PyStr "x"])
  /\ ConditionOperator.eval
       (ConditionOperator.__init__ And [PyDict [("users__login", PyStr "x")]] [])
     = Return ("( users.login = %s )", [PyStr "x"]).
Proof.
  assert (Hu : plain_name "users") by (split; reflexivity).
  assert (Hi : plain_name "in") by (split; reflexivity).
  assert (Hl : plain_name "login") by (split; reflexivity).
  split; [exact Hu|]. split; [exact Hi|]. split; [exact Hl|]. split.
  - exact (proj1 (two_part_key_resolution And "users" "in" (PyStr "x") Hu Hi eq_refl)
             "IN" eq_refl).
  - exact (proj2 (two_part_key_resolution And "users" "login" (PyStr "x") Hu Hl eq_refl)
             eq_refl).
Defined.

(** X9. A key of three parts [a__b__suffix] whose suffix is in the
    operator table is the condition on the dotted name [a.b] with the
    operator of the suffix. *)
Theorem three_part_key_resolution
        (cls : operator_class) (a b suffix sql_op : string) (v : pyobj) :
  plain_name a -> plain_name b ->
  split ConditionOperator.OP_SEPARATOR suffix = [suffix] ->
  ConditionOperator.get ConditionOperator.OPERATORS suffix = Some sql_op ->
  is_field v = false ->
  split ConditionOperator.OP_SEPARATOR (a ++ "__" ++ b ++ "__" ++ suffix) = [a; b; suffix]
  /\ ConditionOperator.eval
       (ConditionOperator.__init__ cls
          [PyDict [((a ++ "__" ++ b ++ "__" ++ suffix)%string, v)]] [])
     = Return (("( " ++ a ++ "." ++ b ++ " " ++ sql_op ++ " %s )")%string, [v]).
Proof.
  intros Ha Hb Hsuffix Hget Hv.
  assert (Hsplit : split ConditionOperator.OP_SEPARATOR (a ++ "__" ++ b ++ "__" ++ suffix)
                   = [a; b; suffix]).
  { now rewrite (split_plain a _ Ha), (split_plain b _ Hb), Hsuffix. }
  split; [exact Hsplit|].
  replace ("( " ++ a ++ "." ++ b ++ " " ++ sql_op ++ " %s )")%string
    with ("( " ++ (a ++ "." ++ b) ++ " " ++ format (Some sql_op) ++ " %s )")%string
    by (rewrite !append_assoc; reflexivity).
  apply eval_single_item; [|exact Hv].
  rewrite (parse_item_three_parts _ a b suffix v Hsplit). now rewrite Hget.
Qed.

Lemma three_part_key_resolution_witness :
  plain_name "table" /\ plain_name "field"
  /\ ConditionOperator.eval
       (ConditionOperator.__init__ Or [PyDict [("table__field__gte", PyInt 5)]] [])
     = Return ("( table.field >= %s )", [PyInt 5]).
Proof.
  assert (Ht : plain_name "table") by (split; reflexivity).
  assert (Hf : plain_name "field") by (split; reflexivity).
  split; [exact Ht|]. split; [exact Hf|].
  exact (proj2 (three_part_key_resolution Or "table" "field" "gte" ">=" (PyInt 5)
                  Ht Hf eq_refl eq_refl eq_refl)).
Defined.

(** X10. In a dict whose keys before [key] split into at most three parts
    and whose key [key] splits into more, the parse raises at this item
    and returns nothing for the items before, and the And or Or over the
    dict raises the same exception.  The message is formatted from the
    key and its value before the raise: when the value can be formatted
    the exception is the [ValueError] with this key and value, and when
    formatting the value meets an And or Or without conditions it is the
    [AttributeError] of that object. *)
Theorem first_long_key_raises
        (cls : operator_class) (d1 d2 : dict) (key : string) (v : pyobj) :
  forallb (fun kv => key_arity_ok (fst kv)) d1 = true ->
  key_arity_ok key = false ->
  (unset_in v = None ->
   ConditionOperator.parse_dict_condition (d1 ++ (key, v) :: d2)
   = Raise {| exn_class_of := ValueError;
              template := "Wrong condition operator in `{}: {}`";
              args := [ArgStr key; ArgObj v] |}
   /\ ConditionOperator.eval
        (ConditionOperator.__init__ cls [PyDict (d1 ++ (key, v) :: d2)] [])
      = Raise {| exn_class_of := ValueError;
                 template := "Wrong condition operator in `{}: {}`";
                 args := [ArgStr key; ArgObj v] |})
  /\ (forall cls',
        unset_in v = Some cls' ->
        ConditionOperator.parse_dict_condition (d1 ++ (key, v) :: d2)
        = Raise (no_conditions cls')
        /\ ConditionOperator.eval
             (ConditionOperator.__init__ cls [PyDict (d1 ++ (key, v) :: d2)] [])
           = Raise (no_conditions cls')).
Proof.
  intros H1 Hkey.
  assert (Hitem : ConditionOperator.parse_item key v
                  = raise ValueError "Wrong condition operator in `{}: {}`"
                      [ArgStr key; ArgObj v]).
  { unfold key_arity_ok in Hkey. unfold ConditionOperator.parse_item.
    destruct (split ConditionOperator.OP_SEPARATOR key) as [|k0 [|k1 [|k2 [|k3 ks]]]];
      try discriminate Hkey. reflexivity. }
  assert (Hd : ConditionOperator.parse_dict_condition (d1 ++ (key, v) :: d2)
               = raise ValueError "Wrong condition operator in `{}: {}`"
                   [ArgStr key; ArgObj v]).
  { induction d1 as [|[k w] d1 IH].
    - cbn [app ConditionOperator.parse_dict_condition]. now rewrite Hitem.
    - cbn [forallb fst] in H1. apply andb_prop in H1. destruct H1 as [Hk H1].
      cbn [app ConditionOperator.parse_dict_condition].
      destruct (proj1 (parse_item_accepts k w) Hk) as [op Hop].
      rewrite Hop, (IH H1). reflexivity. }
  assert (He : ConditionOperator.eval
                 (ConditionOperator.__init__ cls [PyDict (d1 ++ (key, v) :: d2)] [])
               = raise ValueError "Wrong condition operator in `{}: {}`"
                   [ArgStr key; ArgObj v]).
  { unfold ConditionOperator.__init__. cbn [ConditionOperator.eval].
    rewrite (proj2 (parse_each_loop _ [])), parse_each_cons. cbn [parse_member].
    cbn [ConditionOperator.parse_conditions]. now rewrite Hd. }
  rewrite Hd, He. unfold raise. cbn [first_some unset_in_arg].
  split.
  - intros Hv. now rewrite Hv.
  - intros cls' Hv. now rewrite Hv.
Qed.

Lemma first_long_key_raises_witness :
  forallb (fun kv => key_arity_ok (fst kv)) [("a", PyInt 0)] = true
  /\ key_arity_ok "a__b__c__d" = false
  /\ unset_in (PyInt 1) = None
  /\ ConditionOperator.eval
       (ConditionOperator.__init__ And
          [PyDict [("a", PyInt 0); ("a__b__c__d", PyInt 1); ("e", PyInt 2)]] [])
     = Raise {| exn_class_of := ValueError;
                template := "Wrong condition operator in `{}: {}`";
                args := [ArgStr "a__b__c__d"; ArgObj (PyInt 1)] |}.
Proof.
  split; [reflexivity|]. split; [reflexivity|]. split; [reflexivity|].
  exact (proj2 (proj1 (first_long_key_raises And [("a", PyInt 0)] [("e", PyInt 2)]
                         "a__b__c__d" (PyInt 1) eq_refl eq_refl) eq_refl)).
Defined.

(** ** Conditions without items *)

Lemma hollow_entries (t : pyobj) :
  hollow t = true ->
  exists es, entries t = Some es
             /\ flat_map tokens_of es = [] /\ flat_map snd es = [].
Proof.
  revert t.
  apply (tree_ind
           (fun t => hollow t = true ->
                     exists es, entries t = Some es
                                /\ flat_map tokens_of es = [] /\ flat_map snd es = [])
           (fun _ => True)); try exact (fun _ _ _ => I); try exact (fun _ => I).
  - intros l Hl Hh. rewrite (proj1 (entries_seq l)). cbn [hollow] in Hh.
    induction Hl as [|x l Hx _ IH].
    + exists []. now split.
    + cbn [forallb] in Hh. apply andb_prop in Hh. destruct Hh as [Hhx Hhl].
      destruct (Hx Hhx) as [ex [Hex [Htx Hvx]]].
      destruct (IH Hhl) as [el [Hel [Htl Hvl]]].
      exists (ex ++ el)%list. cbn [entries_each].
      assert (Hm : entries_of_member x = Some ex).
      { destruct x; try exact Hex. discriminate Hhx. }
      rewrite Hm, Hel, !flat_map_app, Htx, Htl, Hvx, Hvl. now split.
  - intros l Hl Hh. rewrite (proj2 (entries_seq l)). cbn [hollow] in Hh.
    induction Hl as [|x l Hx _ IH].
    + exists []. now split.
    + cbn [forallb] in Hh. apply andb_prop in Hh. destruct Hh as [Hhx Hhl].
      destruct (Hx Hhx) as [ex [Hex [Htx Hvx]]].
      destruct (IH Hhl) as [el [Hel [Htl Hvl]]].
      exists (ex ++ el)%list. cbn [entries_each].
      assert (Hm : entries_of_member x = Some ex).
      { destruct x; try exact Hex. discriminate Hhx. }
      rewrite Hm, Hel, !flat_map_app, Htx, Htl, Hvx, Hvl. now split.
  - intros c _ Hh. discriminate Hh.
  - intros o Hs Ho Hh. destruct o; try discriminate.
    destruct d; [|discriminate Hh]. eexists. split; [reflexivity|]. now split.
Qed.

(** X11. An And or Or whose conditions hold no dict item and no And or Or
    (empty lists, tuples and dicts, nested at will) evaluates to the
    fragment of two parentheses around two spaces and to no value; it
    neither raises nor leaves the fragment out.  Built with no argument
    at all, it raises [AttributeError] at its evaluation. *)
Theorem hollow_conditions (cls : operator_class) (t : pyobj) :
  hollow t = true ->
  ConditionOperator.eval (Instance cls (Some t)) = Return ("(  )", [])
  /\ ConditionOperator.eval (ConditionOperator.__init__ cls [t] []) = Return ("(  )", [])
  /\ exists e,
       ConditionOperator.eval (ConditionOperator.__init__ cls [] []) = Raise e
       /\ exn_class_of e = AttributeError.
Proof.
  intros Hh.
  assert (H : forall t, hollow t = true ->
                        ConditionOperator.eval (Instance cls (Some t)) = Return ("(  )", [])).
  { intros t' Ht'. destruct (hollow_entries t' Ht') as [es [Hes [Htok Hval]]].
    pose proof (eval_entries cls t') as He. rewrite Hes in He.
    rewrite He, Htok, Hval. now destruct cls. }
  split; [exact (H t Hh)|]. split.
  - apply (H (PyTuple [t])). cbn [hollow forallb]. now rewrite Hh.
  - eexists. split; reflexivity.
Qed.

Lemma hollow_conditions_witness :
  hollow (PyList [PyDict []; PyTuple [PyList []]]) = true
  /\ ConditionOperator.eval
       (ConditionOperator.__init__ Or [PyList [PyDict []; PyTuple [PyList []]]] [])
     = Return ("(  )", []).
Proof.
  split; [reflexivity|].
  exact (proj1 (proj2 (hollow_conditions Or (PyList [PyDict []; PyTuple [PyList []]])
                         eq_refl))).
Defined.

(** ** Keyword arguments, dicts and Q *)

Lemma parse_conditions_frame_collect
      (t : pyobj) (result r : list entry) (out : list string * list pyobj) :
  ConditionOperator.parse_conditions t result = Return (r, out) ->
  out = ConditionOperator.collect r /\ exists es, r = (result ++ es)%list.
Proof.
  intros H. pose proof (parse_conditions_frame t result) as Hf.
  destruct (entries t) as [es|].
  - rewrite Hf in H. injection H as <- <-. split; [reflexivity | now exists es].
  - destruct Hf as [e He]. rewrite He in H. discriminate H.
Qed.

Lemma eval_kwargs_as_dict (cls : operator_class) (kwargs : dict) :
  ConditionOperator.eval (Instance cls (Some (PyDict kwargs)))
  = ConditionOperator.eval (Instance cls (Some (PyTuple [PyDict kwargs]))).
Proof.
  cbn [ConditionOperator.eval].
  rewrite (proj2 (parse_each_loop _ [])), parse_each_cons. cbn [parse_member parse_each].
  destruct (ConditionOperator.parse_conditions (PyDict kwargs) []) as [[r out]|e] eqn:Hp;
    [|reflexivity].
  cbn [bind fst snd].
  destruct (proj1 (parse_conditions_frame_collect (PyDict kwargs) [] r out Hp)).
  reflexivity.
Qed.

(** X12. Called with at least one keyword, [Q] evaluates, or raises,
    exactly as [And] called with the same keywords and as [And] called
    with the dict of them do.  With no keyword [Q()] evaluates to the
    empty pair of parentheses, while [And()] raises [AttributeError]. *)
Theorem Q_is_And_of_kwargs (kwargs : dict) :
  kwargs <> [] ->
  QueryObject.eval (Q kwargs)
  = ConditionOperator.eval (ConditionOperator.__init__ And [] kwargs)
  /\ QueryObject.eval (Q kwargs)
     = ConditionOperator.eval (ConditionOperator.__init__ And [PyDict kwargs] [])
  /\ QueryObject.eval (Q []) = Return ("(  )", [])
  /\ fragment_of (ConditionOperator.eval (ConditionOperator.__init__ And [] [])) = None.
Proof.
  intros Hne. split; [|split; [reflexivity | split; reflexivity]].
  unfold QueryObject.eval, QueryObject.__init__, QueryObject.condition,
    ConditionOperator.__init__.
  destruct kwargs as [|kv kwargs]; [contradiction|].
  symmetry. apply eval_kwargs_as_dict.
Qed.

Lemma Q_is_And_of_kwargs_witness :
  [("a__gt", PyInt 1)] <> ([] : dict)
  /\ QueryObject.eval (Q [("a__gt", PyInt 1)]) = Return ("( a > %s )", [PyInt 1])
  /\ ConditionOperator.eval (ConditionOperator.__init__ And [] [("a__gt", PyInt 1)])
     = Return ("( a > %s )", [PyInt 1]).
Proof.
  assert (Hne : [("a__gt", PyInt 1)] <> ([] : dict)) by discriminate.
  split; [exact Hne|]. split; [reflexivity|].
  rewrite <- (proj1 (Q_is_And_of_kwargs [("a__gt", PyInt 1)] Hne)). reflexivity.
Defined.

Lemma parse_dict_condition_app (d1 d2 : dict) :
  ConditionOperator.parse_dict_condition (d1 ++ d2)
  = (operands1 <- ConditionOperator.parse_dict_condition d1 ;;
     operands2 <- ConditionOperator.parse_dict_condition d2 ;;
     Return (operands1 ++ operands2)%list).
Proof.
  induction d1 as [|[key v] d1 IH]; cbn [app ConditionOperator.parse_dict_condition].
  - cbn [bind]. now destruct (ConditionOperator.parse_dict_condition d2).
  - destruct (ConditionOperator.parse_item key v) as [op|e]; [|reflexivity].
    cbn [bind]. rewrite IH.
    destruct (ConditionOperator.parse_dict_condition d1) as [operands1|e]; [|reflexivity].
    cbn [bind].
    now destruct (ConditionOperator.parse_dict_condition d2).
Qed.

(** X13. One dict and the same items given as two dicts, one after the
    other, are the same conditions: the And or Or over [d1 ++ d2]
    evaluates, or raises, exactly as the one over [d1] and [d2]. *)
Theorem dict_members_merge (cls : operator_class) (d1 d2 : dict) :
  ConditionOperator.eval (ConditionOperator.__init__ cls [PyDict (d1 ++ d2)] [])
  = ConditionOperator.eval (ConditionOperator.__init__ cls [PyDict d1; PyDict d2] []).
Proof.
  unfold ConditionOperator.__init__. cbn [ConditionOperator.eval].
  rewrite !(proj2 (parse_each_loop _ [])), !parse_each_cons.
  cbn [parse_member parse_each ConditionOperator.parse_conditions].
  rewrite parse_dict_condition_app.
  destruct (ConditionOperator.parse_dict_condition d1) as [operands1|e]; [|reflexivity].
  cbn [bind].
  pose proof (expand_operands_fst operands1) as Hf1.
  pose proof (expand_operands_snd operands1) as Hs1.
  destruct (ConditionOperator._expand_operands operands1) as [tokens1 values1].
  cbn [bind fst snd app] in *.
  destruct (ConditionOperator.parse_dict_condition d2) as [operands2|e]; [|reflexivity].
  cbn [bind].
  pose proof (expand_operands_fst (operands1 ++ operands2)) as Hf.
  pose proof (expand_operands_snd (operands1 ++ operands2)) as Hs.
  pose proof (expand_operands_fst operands2) as Hf2.
  pose proof (expand_operands_snd operands2) as Hs2.
  destruct (ConditionOperator._expand_operands (operands1 ++ operands2)) as [tokens values].
  destruct (ConditionOperator._expand_operands operands2) as [tokens2 values2].
  cbn [bind fst snd app] in *. rewrite !collect_flat.
  cbn [flat_map tokens_of part_tokens fst snd app]. rewrite !app_nil_r.
  subst. now rewrite !map_app.
Qed.

(** ** The experimental operators of Operand *)

(** X14. For two items of a dict that parse into the Operands [op1] and
    [op2], the fragment of [op1 | op2] is the fragment of the Or over the
    dict, and the pair of values of [op1 | op2] holds the two entries of
    the value sequence of the Or; the same holds for [&] and And. *)
Theorem Operand_operators_agree
        (key1 key2 : string) (v1 v2 : pyobj) (op1 op2 : Operand) :
  ConditionOperator.parse_item key1 v1 = Return op1 ->
  ConditionOperator.parse_item key2 v2 = Return op2 ->
  ConditionOperator.eval
    (ConditionOperator.__init__ Or [PyDict [(key1, v1); (key2, v2)]] [])
  = Return (fst (Operand.__or__ op1 op2),
            [fst (snd (Operand.__or__ op1 op2)); snd (snd (Operand.__or__ op1 op2))])
  /\ ConditionOperator.eval
       (ConditionOperator.__init__ And [PyDict [(key1, v1); (key2, v2)]] [])
     = Return (fst (Operand.__and__ op1 op2),
               [fst (snd (Operand.__and__ op1 op2)); snd (snd (Operand.__and__ op1 op2))]).
Proof.
  intros H1 H2.
  assert (Hd : ConditionOperator.parse_dict_condition [(key1, v1); (key2, v2)]
               = Return [op1; op2]).
  { cbn [ConditionOperator.parse_dict_condition]. now rewrite H1, H2. }
  split; rewrite (eval_dict _ _ _ Hd); cbn [ConditionOperator._expand_operands];
    unfold Operand.__or__, Operand.__and__;
    destruct (Operand.eval op1) as [t1 val1]; destruct (Operand.eval op2) as [t2 val2];
    cbn [fst snd]; unfold wrap, join; cbn [String.concat ConditionOperator.connective];
    rewrite !append_assoc; reflexivity.
Qed.

Lemma Operand_operators_agree_witness :
  ConditionOperator.parse_item "n__gt" (PyInt 0)
  = Return {| name := "n"; operator := Some ">"; value := PyInt 0 |}
  /\ ConditionOperator.parse_item "total" (PyF Examples.total_plus_1)
     = Return Examples.total_operand
  /\ Operand.__or__ {| name := "n"; operator := Some ">"; value := PyInt 0 |}
       Examples.total_operand
     = ("( n > %s OR total = total + 1 )", (PyInt 0, NOT_A_VALUE))
  /\ ConditionOperator.eval
       (ConditionOperator.__init__ Or
          [PyDict [("n__gt", PyInt 0); ("total", PyF Examples.total_plus_1)]] [])
     = Return ("( n > %s OR total = total + 1 )", [PyInt 0; NOT_A_VALUE]).
Proof.
  split; [reflexivity|]. split; [reflexivity|]. split; [reflexivity|].
  exact (proj1 (Operand_operators_agree "n__gt" "total" (PyInt 0)
                  (PyF Examples.total_plus_1) _ _ eq_refl eq_refl)).
Defined.

(** ** Arithmetic on field references, composed *)

(** X15. The arithmetic methods write no parentheses: the text of
    [(f + x) * y] is the text of [f], [ + ], [x], [ * ], [y] in a row,
    which is also the text of [f + "x * y"]; likewise for [-] and [/].
    The grouping of the Python expression is not in the text. *)
Theorem arithmetic_keeps_no_grouping
        {A B : Type} `{Format A} `{Format B} (f : FieldObject) (x : A) (y : B) :
  FieldObject._value (FieldObject.__mul__ (FieldObject.__add__ f x) y)
  = (FieldObject._value f ++ " + " ++ format x ++ " * " ++ format y)%string
  /\ FieldObject.__mul__ (FieldObject.__add__ f x) y
     = FieldObject.__add__ f (format x ++ " * " ++ format y)%string
  /\ FieldObject.__truediv__ (FieldObject.__sub__ f x) y
     = FieldObject.__sub__ f (format x ++ " / " ++ format y)%string
  /\ FieldObject.__sub__ (FieldObject.__sub__ f x) y
     = FieldObject.__sub__ f (format x ++ " - " ++ format y)%string.
Proof.
  unfold FieldObject.__mul__, FieldObject.__add__, FieldObject.__sub__,
    FieldObject.__truediv__, FieldObject.eval.
  cbn [FieldObject._value]. unfold format at 3 6 9. unfold Format_str.
  repeat split; rewrite ?append_assoc; reflexivity.
Qed.

(** ** The closing loop *)

(** X16. The closing loop of [parse_conditions] keeps the order of
    [result]: the tokens and values of two lists of entries put together
    are the tokens and values of the first followed by those of the
    second; an entry from a dict gives all its tokens, an entry from a
    nested And or Or gives its fragment as one token, and both give their
    values unchanged. *)
Theorem collect_in_order (result1 result2 : list entry) :
  ConditionOperator.collect (result1 ++ result2)
  = ((fst (ConditionOperator.collect result1)
      ++ fst (ConditionOperator.collect result2))%list,
     (snd (ConditionOperator.collect result1)
      ++ snd (ConditionOperator.collect result2))%list)
  /\ (forall tokens values,
        ConditionOperator.collect (result1 ++ [(Tokens tokens, values)])
        = ((fst (ConditionOperator.collect result1) ++ tokens)%list,
           (snd (ConditionOperator.collect result1) ++ values)%list))
  /\ (forall fragment values,
        ConditionOperator.collect (result1 ++ [(Prepared fragment, values)])
        = ((fst (ConditionOperator.collect result1) ++ [fragment])%list,
           (snd (ConditionOperator.collect result1) ++ values)%list)).
Proof.
  repeat split; intros; rewrite !collect_flat, !flat_map_app; cbn [fst snd];
    try reflexivity;
    cbn [flat_map tokens_of part_tokens fst snd]; now rewrite !app_nil_r.
Qed.

(** ** Field references and placeholders *)

Lemma percent_free_uint (d : Decimal.uint) :
  percent_free (NilZero.string_of_uint d) = true.
Proof.
  assert (H : percent_free (NilEmpty.string_of_uint d) = true).
  { induction d; cbn [NilEmpty.string_of_uint percent_free]; try reflexivity;
      rewrite IHd; reflexivity. }
  unfold NilZero.string_of_uint. destruct d; try reflexivity; exact H.
Qed.

Lemma percent_free_int (z : Z) : percent_free (format z) = true.
Proof.
  unfold format, Format_int, NilZero.string_of_int.
  destruct (Z.to_int z) as [d|d].
  - apply percent_free_uint.
  - cbn [percent_free]. now rewrite percent_free_uint.
Qed.

(** X17. Arithmetic of a field reference with an integer brings no
    percent sign into its text: when the text of [f] holds none, the text
    of [f + n], [f - n], [f * n] and [f / n] holds none and has no
    placeholder, so a dict item with this value stays without a
    placeholder of its own. *)
Theorem arithmetic_with_int_is_clean (f : FieldObject) (n : Z) (key : string) :
  percent_free (FieldObject._value f) = true ->
  percent_free (FieldObject._value (FieldObject.__add__ f n)) = true
  /\ percent_free (FieldObject._value (FieldObject.__sub__ f n)) = true
  /\ percent_free (FieldObject._value (FieldObject.__mul__ f n)) = true
  /\ percent_free (FieldObject._value (FieldObject.__truediv__ f n)) = true
  /\ count_placeholders (FieldObject._value (FieldObject.__add__ f n)) = 0
  /\ (percent_free key = true ->
      clean_item (key, PyF (FieldObject.__add__ f n)) = true).
Proof.
  intros Hf.
  assert (H : forall op, percent_free op = true ->
                         percent_free (FieldObject._value f ++ op ++ format n) = true).
  { intros op Hop. now rewrite !percent_free_app, Hf, Hop, percent_free_int. }
  split; [exact (H " + " eq_refl)|]. split; [exact (H " - " eq_refl)|].
  split; [exact (H " * " eq_refl)|]. split; [exact (H " / " eq_refl)|].
  split.
  - apply percent_free_count. exact (H " + " eq_refl).
  - intros Hkey. unfold clean_item. cbn [fst snd]. rewrite Hkey.
    exact (H " + " eq_refl).
Qed.

Lemma arithmetic_with_int_is_clean_witness :
  percent_free (FieldObject._value (F "total")) = true
  /\ percent_free "total" = true
  /\ count_placeholders (FieldObject._value (FieldObject.__add__ (F "total") 1%Z)) = 0
  /\ clean_item ("total", PyF (FieldObject.__add__ (F "total") 1%Z)) = true.
Proof.
  split; [reflexivity|]. split; [reflexivity|].
  pose proof (arithmetic_with_int_is_clean (F "total") 1 "total" eq_refl) as H.
  split.
  - exact (proj1 (proj2 (proj2 (proj2 (proj2 H))))).
  - exact (proj2 (proj2 (proj2 (proj2 (proj2 H)))) eq_refl).
Defined.
